(** * containers.py: the container / database lifecycle command dispatcher

    A shallow embedding of [containers.py].  The script is a sequence of calls
    into three external systems (the docker client, the local filesystem,
    [subprocess.run]) interleaved with [print].  Every function of the script
    becomes a computation in a small state-and-exception monad over a [world]
    that holds the filesystem, the containers known to the runtime and the
    chronological trace of the external calls made so far.

    Environment conventions of the model:
    - the filesystem is a finite map from path strings to the bytes of the
      regular file stored there; a path string is the identity of a file;
      directories are not modelled, so [glob] lists regular files only (in
      the order of the map's keys) and [os.remove] meets none; opening a file
      for writing always succeeds, whatever the path, and so does removing
      an existing file.  The failures the real calls have on other inputs
      (a missing parent directory, a directory where a file is expected, a
      refused permission) are outside the model;
    - the container runtime holds a finite map from container names to their
      status string; [containers.get] on a missing name is the
      [docker.errors.NotFound] the script catches;
    - what a command does inside a container, and what a spawned subprocess
      does, is outside the model: [exec_run] answers through an oracle that
      sees the whole history, [subprocess.run] is recorded as an event;
    - [main] is what runs once the module-level code has found [.env] and
      [compose.yaml], read the service names and the database settings, and
      connected the docker client. *)

From Stdlib Require Import ZArith Ascii String.
From stdpp Require Import gmap strings list fin_maps.

Abbreviation bytes := (list Byte.byte).

(** ** External calls, exceptions, worlds *)

(** [tarfile.TarInfo] entry built by [create_archive] (its [mtime] is wall
    clock time and is left out). *)
Record archive := Archive {
  tar_name : string;
  tar_size : nat;
  tar_data : bytes
}.

Inductive event :=
| Stdout (text : string)
| ContainersGet (name : string)
| ExecRun (container cmd : string)
| PutArchive (container path : string) (data : archive)
| ContainerStart (container : string)
| ContainerStop (container : string)
| SubprocessRun (cmd : string)
| OsRemove (path : string)
| FileOpenWrite (path : string)
| FileWrite (path : string) (data : bytes).

Inductive exn :=
| AttributeError (type_name attr : string)
| IndexError
| FileNotFoundError (path : string).

Record world := World {
  fs : gmap string bytes;
  containers : gmap string string;
  trace : list event
}.

Inductive outcome (A : Type) :=
| Returned (a : A)
| Raised (e : exn).
Arguments Returned {A} a.
Arguments Raised {A} e.

(** ** The monad of script computations *)

Definition py (A : Type) : Type := world -> outcome A * world.

Definition ret {A} (a : A) : py A := fun w => (Returned a, w).

Definition raise {A} (e : exn) : py A := fun w => (Raised e, w).

Definition bind {A B} (m : py A) (k : A -> py B) : py B :=
  fun w =>
    match m w with
    | (Returned a, w') => k a w'
    | (Raised e, w') => (Raised e, w')
    end.

Declare Scope py_scope.
Delimit Scope py_scope with py.
Notation "x <- m ;; k" := (bind m (fun x => k))
  (at level 100, m at next level, right associativity) : py_scope.
Notation "m ;;; k" := (bind m (fun _ => k))
  (at level 100, right associativity) : py_scope.
Local Open Scope py_scope.

Definition emit (e : event) : py unit :=
  fun w => (Returned tt, World (fs w) (containers w) (trace w ++ [e])).

Definition when (b : bool) (m : py unit) : py unit :=
  if b then m else ret tt.

(** ** Text *)

Definition nl : string := String (ascii_of_nat 10) EmptyString.
Definition cr : string := String (ascii_of_nat 13) EmptyString.
Definition dq : string := String (ascii_of_nat 34) EmptyString.
Definition sq : string := String (ascii_of_nat 39) EmptyString.

(** [print(s)] and [print(s, end='\r')]. *)
Definition line (s : string) : event := Stdout (s +:+ nl).
Definition line_cr (s : string) : event := Stdout (s +:+ cr).
Definition print (s : string) : py unit := emit (line s).
Definition print_cr (s : string) : py unit := emit (line_cr s).

(** [str(x)] inside an f-string for a value of [os.getenv]. *)
Definition fmt (o : option string) : string :=
  match o with
  | Some s => s
  | None => "None"
  end.

(** [pat in s] on strings. *)
Definition contains (pat s : string) : bool :=
  match index 0 pat s with
  | Some _ => true
  | None => false
  end.

(** ** [glob.glob] on the flat filesystem *)

Fixpoint split_on (sep : ascii) (s : string) : list string :=
  match s with
  | EmptyString => [EmptyString]
  | String c s' =>
      if Ascii.eqb c sep then EmptyString :: split_on sep s'
      else match split_on sep s' with
           | [] => [String c EmptyString]
           | h :: t => String c h :: t
           end
  end.

(** [fnmatch] for the patterns the script uses: literal characters and [*]. *)
Fixpoint fnmatch (pat name : string) {struct pat} : bool :=
  match pat with
  | EmptyString =>
      match name with
      | EmptyString => true
      | _ => false
      end
  | String c pat' =>
      if Ascii.eqb c "*" then
        (fix star (n : string) : bool :=
           fnmatch pat' n ||
           match n with
           | EmptyString => false
           | String _ n' => star n'
           end) name
      else
        match name with
        | EmptyString => false
        | String d name' => Ascii.eqb c d && fnmatch pat' name'
        end
  end.

(** [glob.has_magic], for the one wildcard the script's patterns use. *)
Fixpoint has_magic (pat : string) : bool :=
  match pat with
  | EmptyString => false
  | String c pat' => Ascii.eqb c "*" || has_magic pat'
  end.

Definition is_hidden (name : string) : bool := String.prefix "." name.

(** One path component against one pattern component: a literal component
    must be that name, a component with a wildcard goes through [fnmatch]
    and never matches a name that starts with a dot. *)
Definition component_match (pat name : string) : bool :=
  if has_magic pat then
    negb (String.eqb name EmptyString) &&
    (is_hidden pat || negb (is_hidden name)) && fnmatch pat name
  else String.eqb pat name.

Fixpoint components_match (pats names : list string) : bool :=
  match pats, names with
  | [], [] => true
  | p :: pats', n :: names' => component_match p n && components_match pats' names'
  | _, _ => false
  end.

Definition glob_match (pattern path : string) : bool :=
  components_match (split_on "/" pattern) (split_on "/" path).

Definition listdir (m : gmap string bytes) : list string :=
  (map_to_list m).*1.

Definition glob (pattern : string) (m : gmap string bytes) : list string :=
  List.filter (glob_match pattern) (listdir m).

(** ** Primitive external calls *)

(** [os.path.isfile]. *)
Definition isfile (path : string) : py bool :=
  fun w => (Returned (bool_decide (is_Some (fs w !! path))), w).

(** [open(path, 'rb').read()]. *)
Definition read_file (path : string) : py bytes :=
  fun w =>
    match fs w !! path with
    | Some data => (Returned data, w)
    | None => (Raised (FileNotFoundError path), w)
    end.

(** [open(path, 'wb+')]: the file is created, or truncated when it exists. *)
Definition open_wb (path : string) : py unit :=
  fun w =>
    (Returned tt,
     World (<[path := []]> (fs w)) (containers w) (trace w ++ [FileOpenWrite path])).

(** [f.write(data)] on a file just opened by [open_wb]. *)
Definition file_write (path : string) (data : bytes) : py unit :=
  fun w =>
    (Returned tt,
     World (<[path := data]> (fs w)) (containers w) (trace w ++ [FileWrite path data])).

(** [os.remove]. *)
Definition os_remove (path : string) : py unit :=
  fun w =>
    match fs w !! path with
    | Some _ =>
        (Returned tt,
         World (delete path (fs w)) (containers w) (trace w ++ [OsRemove path]))
    | None => (Raised (FileNotFoundError path), w)
    end.

(** [glob.glob(pattern)]. *)
Definition glob_glob (pattern : string) : py (list string) :=
  fun w => (Returned (glob pattern (fs w)), w).

(** [subprocess.run(cmd, shell=True)]; the exit status is not looked at. *)
Definition subprocess_run (cmd : string) : py unit := emit (SubprocessRun cmd).

(** What [get_container] returns: [False], [None], or a [Container] object
    with the status the runtime reported when it was fetched. *)
Inductive handle :=
| PyFalse
| PyNone
| Container (name status : string).

(** Python truthiness of a [get_container] result. *)
Definition truthy (c : handle) : bool :=
  match c with
  | Container _ _ => true
  | _ => false
  end.

(** [docker_client.containers.get(name)] with [docker.errors.NotFound]
    caught and turned into [None], as [get_container] does. *)
Definition containers_get (name : string) : py handle :=
  fun w =>
    (Returned match containers w !! name with
              | Some st => Container name st
              | None => PyNone
              end,
     World (fs w) (containers w) (trace w ++ [ContainersGet name])).

Definition set_status (name st : string) : py unit :=
  fun w => (Returned tt, World (fs w) (<[name := st]> (containers w)) (trace w)).

(** Attribute access on the value [get_container] returned. *)
Definition no_attr {A} (c : handle) (attr : string) : py A :=
  raise (AttributeError
           match c with
           | PyNone => "NoneType"
           | _ => "bool"
           end attr).

(** [container.start()] and [container.stop()]. *)
Definition container_start (c : handle) : py unit :=
  match c with
  | Container name _ => emit (ContainerStart name) ;;; set_status name "running"
  | _ => no_attr c "start"
  end.

Definition container_stop (c : handle) : py unit :=
  match c with
  | Container name _ => emit (ContainerStop name) ;;; set_status name "exited"
  | _ => no_attr c "stop"
  end.

(** [container.put_archive(path=path, data=archive)]. *)
Definition put_archive (c : handle) (path : string) (data : archive) : py unit :=
  match c with
  | Container name _ => emit (PutArchive name path data)
  | _ => no_attr c "put_archive"
  end.

(** ** The script *)

Section Script.

(** The keys of [docker_compose['services']], in the order of the file. *)
Variable services : list string.
(** [os.getenv('DB_USER')] and [os.getenv('DB_NAME')]. *)
Variables DB_USER DB_NAME : option string.
(** Exit code and output of a command run inside a container, given the
    container, the command line and everything that happened before. *)
Variable exec_result : string -> string -> list event -> Z * bytes.
(** [sys.argv]. *)
Variable argv : list string.

Definition db_container_name : string := "db".
Definition django_container_name : string := "backend".

(** [container.exec_run(cmd)]. *)
Definition exec_run (c : handle) (cmd : string) : py (Z * bytes) :=
  match c with
  | Container name _ =>
      fun w =>
        (Returned (exec_result name cmd (trace w)),
         World (fs w) (containers w) (trace w ++ [ExecRun name cmd]))
  | _ => no_attr c "exec_run"
  end.

Definition get_container (container_name : string) : py handle :=
  if bool_decide (container_name ∈ services) then containers_get container_name
  else ret PyFalse.

Definition is_running (container_name : string) : py bool :=
  container <- get_container container_name ;;
  match container with
  | Container _ status => ret (String.eqb status "running")
  | _ => ret false
  end.

Fixpoint running_loop (l : list string) : py bool :=
  match l with
  | [] => ret true
  | container :: rest =>
      r <- is_running container ;;
      if r then running_loop rest else ret false
  end.

Definition are_containers_running : py bool := running_loop services.

Definition start_container (container_name : string) : py bool :=
  container <- get_container container_name ;;
  if truthy container then
    (print_cr ("Starting " +:+ dq +:+ container_name +:+ dq +:+ " container...") ;;;
     container_start container ;;;
     print (dq +:+ container_name +:+ dq +:+ " container started    ") ;;;
     ret true)
  else
    (print ("Impossible to start " +:+ dq +:+ container_name +:+ dq
            +:+ " container: container not found") ;;;
     ret false).

Definition stop_container (container_name : string) : py bool :=
  container <- get_container container_name ;;
  if truthy container then
    (print_cr ("Stopping " +:+ dq +:+ container_name +:+ dq +:+ " container...") ;;;
     container_stop container ;;;
     print (dq +:+ container_name +:+ dq +:+ " container stopped    ") ;;;
     ret true)
  else
    (print ("Impossible to stop " +:+ dq +:+ container_name +:+ dq
            +:+ " container: container not found") ;;;
     ret false).

Definition dump_db (dump_filename : string) : py bool :=
  db_container <- get_container db_container_name ;;
  print_cr "Dumping db..." ;;;
  dump_result <- exec_run db_container
                   ("pg_dump -Fc -U " +:+ fmt DB_USER +:+ " " +:+ fmt DB_NAME) ;;
  if negb (dump_result.1 =? 0)%Z then
    (print "Error while dumping" ;;; ret false)
  else
    (print "Db dumped    " ;;;
     open_wb dump_filename ;;;
     print_cr ("Writing dump to " +:+ dump_filename +:+ "...") ;;;
     file_write dump_filename dump_result.2 ;;;
     print ("Dump written to " +:+ dump_filename +:+ "   ") ;;;
     ret true).

Definition create_archive (artifact_file : string) : py archive :=
  file_data <- read_file artifact_file ;;
  ret (Archive artifact_file (length file_data) file_data).

Definition copy_to_container (container : handle) (artifact_file path : string)
  : py unit :=
  archive <- create_archive artifact_file ;;
  put_archive container path archive.

Definition restore_db (dump_filename : string) : py bool :=
  present <- isfile dump_filename ;;
  if negb present then
    (print ("File " +:+ dq +:+ dump_filename +:+ dq +:+ " doesn" +:+ sq
            +:+ "t exists!") ;;;
     ret false)
  else
    (db_container <- get_container db_container_name ;;
     stop_container django_container_name ;;;
     print_cr "Copying file to container..." ;;;
     copy_to_container db_container dump_filename "/tmp" ;;;
     print "File copied to container    " ;;;
     print_cr "Restoring db..." ;;;
     restore_result <- exec_run db_container
                         ("pg_restore --clean --create -U " +:+ fmt DB_USER
                          +:+ " -d postgres /tmp/" +:+ dump_filename) ;;
     when (restore_result.1 =? 0)%Z (print "Db restored    ") ;;;
     start_container django_container_name ;;;
     if negb (restore_result.1 =? 0)%Z then
       (print "Error while restoring" ;;; ret false)
     else ret true).

Definition create_db : py bool :=
  db_container <- get_container db_container_name ;;
  print_cr "Creating db..." ;;;
  dump_result <- exec_run db_container
                   ("createdb -U " +:+ fmt DB_USER +:+ " " +:+ fmt DB_NAME) ;;
  if negb (dump_result.1 =? 0)%Z then
    (print "Error while creating db" ;;; ret false)
  else
    (print "Db re-created " ;;; ret true).

Definition reset_db : py bool :=
  db_container <- get_container db_container_name ;;
  stop_container django_container_name ;;;
  print_cr "Dropping db..." ;;;
  dump_result <- exec_run db_container
                   ("dropdb -U " +:+ fmt DB_USER +:+ " " +:+ fmt DB_NAME) ;;
  (if negb (dump_result.1 =? 0)%Z then print "Error while dropping db"
   else print "Db dropped     ") ;;;
  create_db ;;;
  start_container django_container_name ;;;
  if negb (dump_result.1 =? 0)%Z then ret false else ret true.

Fixpoint remove_all (files : list string) : py unit :=
  match files with
  | [] => ret tt
  | file :: rest => os_remove file ;;; remove_all rest
  end.

Definition delete_migrations : py unit :=
  py_files <- glob_glob "backend/*/migrations/*.py" ;;
  pyc_files <- glob_glob "backend/*/migrations/*.pyc" ;;
  remove_all
    (List.filter (fun x => negb (contains "__init__.py" x)) py_files ++ pyc_files).

Definition django_migrate : py unit :=
  subprocess_run "docker exec -it backend /app/manage.py makemigrations" ;;;
  subprocess_run "docker exec -it backend /app/manage.py migrate".

Definition manage (args : string) : py unit :=
  subprocess_run ("docker exec -it backend /app/manage.py " +:+ args).

Definition compose_build : py unit := subprocess_run "docker compose build".
Definition compose_up : py unit := subprocess_run "docker compose up -d".
Definition compose_down : py unit := subprocess_run "docker compose down".

Definition shell (container_name : string) : py unit :=
  subprocess_run ("docker exec -it " +:+ container_name +:+ " sh").

Definition reset_django : py unit :=
  delete_migrations ;;;
  reset_db ;;;
  django_migrate.

Definition usage_lines : list string :=
  [ "Usage: python containers.py [action]";
    EmptyString;
    "Actions:";
    "-h   --help                      Print help";
    "build [?up]                      Build and eventually run containers";
    "up                               Run containers";
    "down                             Stop containers";
    "shell [container_name]           Enter container" +:+ sq +:+ "s shell";
    "dump [?filename=" +:+ dq +:+ "db.dump" +:+ dq +:+ "]       Dump database";
    "restore [filename]               Restore database from dump";
    "resetdb                          Drop and re-create db";
    "resetdjango                      Reset db and django migrations";
    "manage [options]                 Run django manage.py" ].

Fixpoint print_lines (lines : list string) : py unit :=
  match lines with
  | [] => ret tt
  | l :: rest => print l ;;; print_lines rest
  end.

Definition print_usage : py unit := print_lines usage_lines.

(** [sys.argv[i]]. *)
Definition argv_at (i : nat) : py string :=
  match argv !! i with
  | Some a => ret a
  | None => raise IndexError
  end.

(** [' '.join(l)]. *)
Fixpoint join (sep : string) (l : list string) : string :=
  match l with
  | [] => EmptyString
  | [a] => a
  | a :: rest => a +:+ sep +:+ join sep rest
  end.

(** The [if]/[elif] chain of [main], after [containers_running] has been
    computed and the migrations deleted. *)
Definition dispatch (containers_running : bool) : py unit :=
  if (length argv =? 1)%nat then print_usage
  else
    cmd <- argv_at 1 ;;
    if String.eqb cmd "-h" || String.eqb cmd "--help" || String.eqb cmd "help" then
      print_usage
    else if String.eqb cmd "build" then
      (compose_build ;;;
       if (2 <? length argv)%nat then
         (a2 <- argv_at 2 ;; when (String.eqb a2 "up") compose_up)
       else ret tt)
    else if String.eqb cmd "up" then compose_up
    else if negb containers_running then
      print ("Run " +:+ dq +:+ "python containers.py up" +:+ dq
             +:+ " before running " +:+ cmd +:+ "!")
    else if String.eqb cmd "shell" then
      (when (length argv <? 3)%nat (print "Missing container name!") ;;;
       when (3 <? length argv)%nat (print "Too many arguments!") ;;;
       a2 <- argv_at 2 ;;
       shell a2)
    else if String.eqb cmd "down" then compose_down
    else if String.eqb cmd "dump" then
      (if (2 <? length argv)%nat then
         (a2 <- argv_at 2 ;; dump_db a2 ;;; ret tt)
       else (dump_db "db.dump" ;;; ret tt))
    else if String.eqb cmd "restore" then
      (if (length argv <? 3)%nat then print "Missing filename of the dump to restore!"
       else if (3 <? length argv)%nat then print "Too many arguments!"
       else (a2 <- argv_at 2 ;; restore_db a2 ;;; ret tt))
    else if String.eqb cmd "resetdb" then (reset_db ;;; ret tt)
    else if String.eqb cmd "resetdjango" then reset_django
    else if String.eqb cmd "manage" then manage (join " " (drop 2 argv))
    else
      (print ("Command " +:+ cmd +:+ " not found. Refer to the usage manual:") ;;;
       print_usage).

Definition main : py unit :=
  containers_running <- are_containers_running ;;
  delete_migrations ;;;
  dispatch containers_running.

End Script.

(** ** Observations on worlds and traces *)

Definition add_events (evs : list event) (w : world) : world :=
  World (fs w) (containers w) (trace w ++ evs).

(** Calls into the docker client. *)
Definition runtime_call (e : event) : bool :=
  match e with
  | ContainersGet _ | ExecRun _ _ | PutArchive _ _ _
  | ContainerStart _ | ContainerStop _ => true
  | _ => false
  end.

(** Calls on a container object: everything but the name lookup. *)
Definition container_method (e : event) : bool :=
  match e with
  | ExecRun _ _ | PutArchive _ _ _ | ContainerStart _ | ContainerStop _ => true
  | _ => false
  end.

Definition subprocess_call (e : event) : bool :=
  match e with
  | SubprocessRun _ => true
  | _ => false
  end.

Definition fs_modification (e : event) : bool :=
  match e with
  | OsRemove _ | FileOpenWrite _ | FileWrite _ _ => true
  | _ => false
  end.

Definition side_effect (e : event) : bool :=
  runtime_call e || subprocess_call e || fs_modification e.

(** What a command's action is made of: anything that is neither console
    output, nor a status lookup, nor the removal of a file. *)
Definition action_event (e : event) : bool :=
  container_method e || subprocess_call e ||
  match e with
  | FileOpenWrite _ | FileWrite _ _ => true
  | _ => false
  end.

(** The service is declared and the runtime reports it as running. *)
Definition running_in (services : list string) (cs : gmap string string)
    (name : string) : Prop :=
  name ∈ services ∧ cs !! name = Some "running".

Definition stack_running (services : list string) (cs : gmap string string) : Prop :=
  Forall (fun name => cs !! name = Some "running") services.

(** What [get_container] answers in a given runtime. *)
Definition resolve (services : list string) (cs : gmap string string)
    (name : string) : handle :=
  if bool_decide (name ∈ services) then
    match cs !! name with
    | Some st => Container name st
    | None => PyNone
    end
  else PyFalse.

Definition get_events (services : list string) (name : string) : list event :=
  if bool_decide (name ∈ services) then [ContainersGet name] else [].

(** The files [delete_migrations] removes, in the order it removes them. *)
Definition generated_migrations (m : gmap string bytes) : list string :=
  List.filter (fun x => negb (contains "__init__.py" x))
    (glob "backend/*/migrations/*.py" m)
  ++ glob "backend/*/migrations/*.pyc" m.

(** The names [main] tests for before it looks at [containers_running]. *)
Definition ungated (cmd : string) : bool :=
  String.eqb cmd "-h" || String.eqb cmd "--help" || String.eqb cmd "help" ||
  String.eqb cmd "build" || String.eqb cmd "up".

(** The first argument is one of the names [main] tests for. *)
Definition recognized (cmd : string) : bool :=
  ungated cmd || String.eqb cmd "shell" ||
  String.eqb cmd "down" || String.eqb cmd "dump" || String.eqb cmd "restore" ||
  String.eqb cmd "resetdb" || String.eqb cmd "resetdjango" ||
  String.eqb cmd "manage".

Definition stack_dependent : list string :=
  ["shell"; "down"; "dump"; "restore"; "resetdb"; "resetdjango"; "manage"].

Definition run_up_first (cmd : string) : event :=
  line ("Run " +:+ dq +:+ "python containers.py up" +:+ dq
        +:+ " before running " +:+ cmd +:+ "!").

Definition usage_output : list event := line <$> usage_lines.

Definition not_found_output (cmd : string) : list event :=
  line ("Command " +:+ cmd +:+ " not found. Refer to the usage manual:")
  :: usage_output.

(** The command lines run inside the containers. *)
Definition pg_dump_cmd (DB_USER DB_NAME : option string) : string :=
  "pg_dump -Fc -U " +:+ fmt DB_USER +:+ " " +:+ fmt DB_NAME.

Definition pg_restore_cmd (DB_USER : option string) (dump_filename : string) : string :=
  "pg_restore --clean --create -U " +:+ fmt DB_USER
  +:+ " -d postgres /tmp/" +:+ dump_filename.

Definition createdb_cmd (DB_USER DB_NAME : option string) : string :=
  "createdb -U " +:+ fmt DB_USER +:+ " " +:+ fmt DB_NAME.

Definition dropdb_cmd (DB_USER DB_NAME : option string) : string :=
  "dropdb -U " +:+ fmt DB_USER +:+ " " +:+ fmt DB_NAME.



Definition start_output (name : string) : list event :=
  [ line_cr ("Starting " +:+ dq +:+ name +:+ dq +:+ " container...");
    ContainerStart name;
    line (dq +:+ name +:+ dq +:+ " container started    ") ].

Definition stop_output (name : string) : list event :=
  [ line_cr ("Stopping " +:+ dq +:+ name +:+ dq +:+ " container...");
    ContainerStop name;
    line (dq +:+ name +:+ dq +:+ " container stopped    ") ].

Definition cannot_start (name : string) : event :=
  line ("Impossible to start " +:+ dq +:+ name +:+ dq
        +:+ " container: container not found").

Definition cannot_stop (name : string) : event :=
  line ("Impossible to stop " +:+ dq +:+ name +:+ dq
        +:+ " container: container not found").

(** What [stop_container] and [start_container] do to the runtime and what
    they add to the trace, given the runtime they are called in. *)
Definition stopped (services : list string) (cs : gmap string string)
    (name : string) : gmap string string :=
  if truthy (resolve services cs name) then <[name := "exited"]> cs else cs.

Definition started (services : list string) (cs : gmap string string)
    (name : string) : gmap string string :=
  if truthy (resolve services cs name) then <[name := "running"]> cs else cs.

Definition stop_events (services : list string) (cs : gmap string string)
    (name : string) : list event :=
  get_events services name ++
  if truthy (resolve services cs name) then stop_output name else [cannot_stop name].

Definition start_events (services : list string) (cs : gmap string string)
    (name : string) : list event :=
  get_events services name ++
  if truthy (resolve services cs name) then start_output name else [cannot_start name].

(** The Python type whose attribute lookup fails on [False] and on [None]. *)
Definition type_name_of (c : handle) : string :=
  match c with
  | PyNone => "NoneType"
  | _ => "bool"
  end.

(** Calls made on the object bound to [db_container]. *)
Definition db_call (e : event) : bool :=
  match e with
  | ExecRun _ _ | PutArchive _ _ _ => true
  | _ => false
  end.

Definition console_output (e : event) : bool :=
  match e with
  | Stdout _ => true
  | _ => false
  end.

(** The paths the two patterns of [delete_migrations] can match. *)
Definition migration_path (p : string) : Prop :=
  glob_match "backend/*/migrations/*.py" p = true
  \/ glob_match "backend/*/migrations/*.pyc" p = true.

(** The file a [dump] command line writes to. *)
Definition dump_target (argv : list string) : string :=
  match argv !! 2 with
  | Some f => f
  | None => "db.dump"
  end.

(** The local paths a run of [main] with these arguments may remove or
    write. *)
Definition allowed_main (argv : list string) (p : string) : Prop :=
  migration_path p \/ (argv !! 1 = Some "dump" /\ p = dump_target argv).

(** An external call that stays within bounds: container methods go to the
    two containers the script names ([start] and [stop] to [backend],
    [exec_run] and [put_archive] to [db]), and local files are removed or
    written only at allowed paths. *)
Definition event_ok (allowed : string -> Prop) (e : event) : Prop :=
  match e with
  | ContainerStart n | ContainerStop n => n = "backend"
  | ExecRun n _ | PutArchive n _ _ => n = "db"
  | OsRemove p | FileOpenWrite p | FileWrite p _ => allowed p
  | _ => True
  end.

(** A container object, if it is one, is the container of that name. *)
Definition handle_named (name : string) (c : handle) : Prop :=
  match c with
  | Container n _ => n = name
  | _ => True
  end.

(** From every world, the computation only appends calls that are
    [event_ok] to the trace, leaves every file outside [allowed] as it was,
    changes the status of no container but [backend], neither adds a
    container to the runtime nor takes one away, and returns, when it
    returns, a value that satisfies [Q]. *)
Definition confined {A} (allowed : string -> Prop) (Q : A -> Prop) (m : py A)
  : Prop :=
  forall w,
    (exists evs, trace (m w).2 = trace w ++ evs /\ Forall (event_ok allowed) evs) /\
    (forall p, ~ allowed p -> fs (m w).2 !! p = fs w !! p) /\
    (forall n, n <> "backend" -> containers (m w).2 !! n = containers w !! n) /\
    (forall n, is_Some (containers (m w).2 !! n) <-> is_Some (containers w !! n)) /\
    (forall a, (m w).1 = Returned a -> Q a).

Ltac head_if_confined :=
  match goal with
  | |- confined _ _ (if ?c then _ else _) => destruct c eqn:?
  end.

(** ** Sample environments *)

Definition sample_services : list string := ["db"; "backend"].

Definition sample_fs : gmap string bytes :=
  list_to_map [("backend/shop/migrations/0001_initial.py", [Byte.x23]);
               ("backend/shop/migrations/__init__.py", []);
               ("backend/shop/migrations/0001_initial.pyc", [Byte.x00]);
               ("backend/shop/models.py", [Byte.x23]);
               ("db.dump", [Byte.x50; Byte.x47])].

(** Both services of [sample_services] are up. *)
Definition sample_world : world :=
  World sample_fs (list_to_map [("db", "running"); ("backend", "running")]) [].

(** The backend container has exited. *)
Definition sample_world_down : world :=
  World sample_fs (list_to_map [("db", "running"); ("backend", "exited")]) [].

(** The runtime has no container for the declared [db] service. *)
Definition sample_world_no_db : world :=
  World sample_fs (list_to_map [("backend", "running")]) [].


(** Every command run in a container succeeds and prints two bytes. *)
Definition exec_ok (container cmd : string) (history : list event) : Z * bytes :=
  (0%Z, [Byte.x50; Byte.x47]).

(** Every command run in a container fails. *)
Definition exec_fail (container cmd : string) (history : list event) : Z * bytes :=
  (1%Z, []).

(** [dropdb] fails, everything else succeeds. *)
Definition exec_drop_fails (container cmd : string) (history : list event)
  : Z * bytes :=
  if String.prefix "dropdb" cmd then (1%Z, []) else (0%Z, []).

(** ** Proof automation for straight-line computations *)

Ltac py_unfold :=
  cbv [bind print print_cr emit exec_run put_archive container_start
       container_stop set_status no_attr raise add_events open_wb file_write
       isfile read_file subprocess_run when ret truthy negb];
  cbn [fs containers trace fst snd].

Ltac py_trace := rewrite <- ?app_assoc; cbn [app].

(** ** Examples *)

Example glob_ex :
  glob "backend/*/migrations/*.py"
    (list_to_map [("backend/shop/migrations/0001_initial.py", []);
                  ("backend/shop/migrations/__init__.py", []);
                  ("backend/shop/migrations/.hidden.py", []);
                  ("backend/shop/migrations/0001_initial.pyc", []);
                  ("backend/shop/models.py", []);
                  ("backend/.git/migrations/a.py", []);
                  ("db.dump", [])])
  = ["backend/shop/migrations/__init__.py";
     "backend/shop/migrations/0001_initial.py"].
Proof. vm_compute. reflexivity. Qed.

(** The test that spares [__init__.py] is a substring test on the whole
    path. *)
Example contains_ex :
  contains "__init__.py" "backend/shop/migrations/__init__.py" = true
  /\ contains "__init__.py" "backend/shop/migrations/0002__init__.py" = true
  /\ contains "__init__.py" "backend/shop/migrations/0001_initial.py" = false.
Proof. repeat split. Qed.

Example generated_migrations_ex :
  generated_migrations sample_fs
  = ["backend/shop/migrations/0001_initial.py";
     "backend/shop/migrations/0001_initial.pyc"].
Proof. vm_compute. reflexivity. Qed.

(** [dump] with the stack up: the export is written to [db.dump]. *)
Example main_dump_ex :
  let run := main sample_services (Some "shop") (Some "shopdb") exec_ok
               ["containers.py"; "dump"] sample_world in
  run.1 = Returned tt
  /\ fs run.2 !! "db.dump" = Some [Byte.x50; Byte.x47]
  /\ List.filter runtime_call (trace run.2)
     = [ContainersGet "db"; ContainersGet "backend"; ContainersGet "db";
        ExecRun "db" "pg_dump -Fc -U shop shopdb"].
Proof. vm_compute. repeat split. Qed.

(** ** Basic facts about the monad and the primitives *)

Lemma add_events_nil w : add_events [] w = w.
Proof. destruct w; unfold add_events; simpl. by rewrite app_nil_r. Qed.

Lemma add_events_app evs1 evs2 w :
  add_events evs2 (add_events evs1 w) = add_events (evs1 ++ evs2) w.
Proof. unfold add_events; simpl. by rewrite app_assoc. Qed.

Lemma bind_returned {A B} (m : py A) (k : A -> py B) w a w' :
  m w = (Returned a, w') -> bind m k w = k a w'.
Proof. intros H. unfold bind. by rewrite H. Qed.

Lemma bind_raised {A B} (m : py A) (k : A -> py B) w e w' :
  m w = (Raised e, w') -> bind m k w = (Raised e, w').
Proof. intros H. unfold bind. by rewrite H. Qed.

Lemma emit_run e w : emit e w = (Returned tt, add_events [e] w).
Proof. reflexivity. Qed.

Lemma print_run s w : print s w = (Returned tt, add_events [line s] w).
Proof. reflexivity. Qed.

Lemma print_cr_run s w : print_cr s w = (Returned tt, add_events [line_cr s] w).
Proof. reflexivity. Qed.

(** ** Container resolution and the running check *)

Section Resolution.

Variable services : list string.

Lemma get_container_run name w :
    get_container services name w =
    (Returned (resolve services (containers w) name),
     add_events (get_events services name) w).
Proof.
    unfold get_container, resolve, get_events.
    case_bool_decide; [reflexivity |].
    unfold ret. by rewrite add_events_nil.
Qed.

Lemma is_running_run name w :
  is_running services name w =
  (Returned (bool_decide (running_in services (containers w) name)),
   add_events (get_events services name) w).
Proof.
  unfold is_running.
  rewrite (bind_returned _ _ _ _ _ (get_container_run name w)).
  unfold resolve, running_in. case_bool_decide as Hin.
  - destruct (containers w !! name) as [st|] eqn:Hst; unfold ret; f_equal.
    + f_equal. destruct (String.eqb_spec st "running") as [->|Hne].
      * symmetry. by apply bool_decide_eq_true_2.
      * symmetry. apply bool_decide_eq_false_2. intros [_ [=]]. done.
    + f_equal. symmetry. apply bool_decide_eq_false_2. by intros [_ [=]].
  - unfold ret. f_equal. f_equal. symmetry. apply bool_decide_eq_false_2. by intros [? _].
Qed.

Lemma running_loop_run l w :
  exists probed,
    sublist probed l /\
    running_loop services l w =
    (Returned (bool_decide (Forall (running_in services (containers w)) l)),
     add_events (ContainersGet <$> probed) w).
Proof.
  revert w. induction l as [|c l IH]; intros w.
  - exists []. split; [constructor |]. simpl. unfold ret.
    rewrite add_events_nil. f_equal.
  - simpl. rewrite (bind_returned _ _ _ _ _ (is_running_run c w)).
    case_bool_decide as Hc.
    + destruct (IH (add_events (get_events services c) w)) as (probed & Hsub & Hrun).
      rewrite Hrun. simpl. rewrite add_events_app.
      unfold get_events. destruct Hc as [Hin Hst]. rewrite (bool_decide_eq_true_2 _ Hin).
      exists (c :: probed). split; [by constructor |].
      f_equal. f_equal. apply bool_decide_ext. rewrite Forall_cons.
      unfold running_in at 2. tauto.
    + unfold ret. unfold get_events. case_bool_decide.
      * exists [c]. split; [constructor; apply sublist_nil_l |].
        f_equal. f_equal. symmetry. apply bool_decide_eq_false_2.
        rewrite Forall_cons. tauto.
      * exists []. split; [apply sublist_nil_l |].
        simpl. rewrite !add_events_nil.
        f_equal. f_equal. symmetry. apply bool_decide_eq_false_2.
        rewrite Forall_cons. tauto.
Qed.

Lemma are_containers_running_run w :
  exists probed,
    sublist probed services /\
    are_containers_running services w =
    (Returned (bool_decide (stack_running services (containers w))),
     add_events (ContainersGet <$> probed) w).
Proof.
  destruct (running_loop_run services w) as (probed & Hsub & Hrun).
  exists probed. split; [done |]. unfold are_containers_running. rewrite Hrun.
  f_equal. f_equal. apply bool_decide_ext. unfold stack_running, running_in.
  rewrite !Forall_forall. naive_solver.
Qed.
End Resolution.

(** ** Globbing and the deletion of generated migrations *)

Lemma fnmatch_literal pat n :
  has_magic pat = false -> fnmatch pat n = String.eqb pat n.
Proof.
  revert n. induction pat as [|c pat IH]; intros n Hlit.
  - by destruct n.
  - simpl in Hlit. apply orb_false_elim in Hlit as [Hc Hpat].
    simpl. rewrite Hc. destruct n as [|d n]; [done |].
    rewrite (IH n Hpat). reflexivity.
Qed.

Lemma fnmatch_star pat n :
  fnmatch (String "*" pat) n =
  fnmatch pat n ||
  match n with
  | EmptyString => false
  | String _ n' => fnmatch (String "*" pat) n'
  end.
Proof. destruct n; reflexivity. Qed.

Lemma fnmatch_py_pyc n :
  fnmatch "*.py" n = true -> fnmatch "*.pyc" n = false.
Proof.
  induction n as [|a n IH]; [done |].
  rewrite !(fnmatch_star _ (String a n)).
  rewrite (fnmatch_literal ".py"), (fnmatch_literal ".pyc") by reflexivity.
  intros H. apply orb_true_iff in H as [H|H].
  - apply String.eqb_eq in H. injection H as <- <-. reflexivity.
  - rewrite (IH H), orb_false_r.
    apply String.eqb_neq. intros E. injection E as <- <-. discriminate H.
Qed.

Lemma component_py_pyc d :
  component_match "*.py" d = true -> component_match "*.pyc" d = false.
Proof.
  unfold component_match.
  change (has_magic "*.py") with true. change (has_magic "*.pyc") with true.
  cbv iota. intros H. apply andb_true_iff in H as [_ H].
  rewrite (fnmatch_py_pyc d H). apply andb_false_r.
Qed.

Lemma glob_py_pyc_disjoint p :
  glob_match "backend/*/migrations/*.py" p = true ->
  glob_match "backend/*/migrations/*.pyc" p = false.
Proof.
  unfold glob_match.
  change (split_on "/" "backend/*/migrations/*.py")
    with ["backend"; "*"; "migrations"; "*.py"].
  change (split_on "/" "backend/*/migrations/*.pyc")
    with ["backend"; "*"; "migrations"; "*.pyc"].
  destruct (split_on "/" p) as [|a [|b [|c [|d [|e l]]]]];
    cbn [components_match]; rewrite ?andb_false_r; try done.
  rewrite !andb_true_r. intros H.
  apply andb_true_iff in H as [_ H]. apply andb_true_iff in H as [_ H].
  apply andb_true_iff in H as [_ Hd].
  rewrite (component_py_pyc d Hd). by rewrite !andb_false_r.
Qed.

Lemma elem_of_glob pattern (m : gmap string bytes) p :
  p ∈ glob pattern m <-> is_Some (m !! p) /\ glob_match pattern p = true.
Proof.
  unfold glob, listdir. rewrite list_elem_of_In, filter_In, <- list_elem_of_In.
  rewrite list_elem_of_fmap. split.
  - intros [[[q x] [-> Hx]] Hm]. apply elem_of_map_to_list in Hx. eauto.
  - intros [[x Hx] Hm]. split; [| done]. exists (p, x). split; [done |].
    by apply elem_of_map_to_list.
Qed.

Lemma NoDup_glob pattern (m : gmap string bytes) : NoDup (glob pattern m).
Proof.
  apply NoDup_ListNoDup, List.NoDup_filter, NoDup_ListNoDup, NoDup_fst_map_to_list.
Qed.

Lemma elem_of_generated_migrations (m : gmap string bytes) p :
  p ∈ generated_migrations m <->
  is_Some (m !! p) /\
  (glob_match "backend/*/migrations/*.py" p = true /\ contains "__init__.py" p = false
   \/ glob_match "backend/*/migrations/*.pyc" p = true).
Proof.
  unfold generated_migrations.
  rewrite elem_of_app, list_elem_of_In, filter_In, <- list_elem_of_In.
  rewrite !elem_of_glob, negb_true_iff. tauto.
Qed.

Lemma NoDup_generated_migrations (m : gmap string bytes) :
  NoDup (generated_migrations m).
Proof.
  unfold generated_migrations. apply NoDup_app. split; [| split].
  - apply NoDup_ListNoDup, List.NoDup_filter, NoDup_ListNoDup, NoDup_glob.
  - intros p Hp Hq. apply list_elem_of_In, filter_In in Hp as [Hp _].
    apply list_elem_of_In, elem_of_glob in Hp as [_ Hp].
    apply elem_of_glob in Hq as [_ Hq].
    by rewrite (glob_py_pyc_disjoint p Hp) in Hq.
  - apply NoDup_glob.
Qed.

Lemma remove_all_run files w :
  NoDup files ->
  Forall (fun p => is_Some (fs w !! p)) files ->
  remove_all files w =
  (Returned tt,
   World (foldr delete (fs w) files) (containers w) (trace w ++ (OsRemove <$> files))).
Proof.
  revert w. induction files as [|p files IH]; intros w Hnd Hall.
  - simpl. unfold ret. rewrite app_nil_r. by destruct w.
  - apply NoDup_cons in Hnd as [Hp Hnd]. apply Forall_cons in Hall as [[x Hx] Hall].
    simpl. unfold bind, os_remove. rewrite Hx. rewrite IH; simpl; [| done |].
    + rewrite <- app_assoc. simpl. by rewrite delete_foldr_delete.
    + rewrite Forall_forall in Hall |- *. intros q Hq.
      rewrite lookup_delete_ne; [by apply Hall |]. intros ->. done.
Qed.

Lemma delete_migrations_run w :
  delete_migrations w =
  (Returned tt,
   World (foldr delete (fs w) (generated_migrations (fs w))) (containers w)
         (trace w ++ (OsRemove <$> generated_migrations (fs w)))).
Proof.
  unfold delete_migrations, bind, glob_glob.
  apply remove_all_run.
  - apply NoDup_generated_migrations.
  - apply Forall_forall. intros p Hp.
    by apply elem_of_generated_migrations in Hp as [Hp _].
Qed.

(** ** The database operations, step by step *)

Section Operations.

Variable services : list string.
Variables DB_USER DB_NAME : option string.
Variable exec_result : string -> string -> list event -> Z * bytes.

Lemma resolve_container name st cs :
  name ∈ services -> cs !! name = Some st ->
  resolve services cs name = Container name st.
Proof.
  intros Hin Hst. unfold resolve. by rewrite bool_decide_eq_true_2, Hst.
Qed.

Lemma resolve_name cs name n st :
  resolve services cs name = Container n st -> n = name.
Proof.
  unfold resolve. case_bool_decide; [| done].
  destruct (cs !! name); [| done]. by intros [= <- _].
Qed.

Lemma get_events_declared name :
  name ∈ services -> get_events services name = [ContainersGet name].
Proof. intros Hin. unfold get_events. by rewrite bool_decide_eq_true_2. Qed.

Lemma start_container_run name w :
  start_container services name w =
  (Returned (truthy (resolve services (containers w) name)),
   World (fs w) (started services (containers w) name)
         (trace w ++ start_events services (containers w) name)).
Proof.
  unfold start_container.
  rewrite (bind_returned _ _ _ _ _ (get_container_run services name w)).
  unfold started, start_events.
  destruct (resolve services (containers w) name) as [| |n st] eqn:Hr;
    [| | apply resolve_name in Hr as ->]; py_unfold; by py_trace.
Qed.

Lemma stop_container_run name w :
  stop_container services name w =
  (Returned (truthy (resolve services (containers w) name)),
   World (fs w) (stopped services (containers w) name)
         (trace w ++ stop_events services (containers w) name)).
Proof.
  unfold stop_container.
  rewrite (bind_returned _ _ _ _ _ (get_container_run services name w)).
  unfold stopped, stop_events.
  destruct (resolve services (containers w) name) as [| |n st] eqn:Hr;
    [| | apply resolve_name in Hr as ->]; py_unfold; by py_trace.
Qed.

Lemma exec_run_container n st cmd w :
  exec_run exec_result (Container n st) cmd w =
  (Returned (exec_result n cmd (trace w)), add_events [ExecRun n cmd] w).
Proof. reflexivity. Qed.

Lemma dump_db_run f w st :
  "db" ∈ services -> containers w !! "db" = Some st ->
  let h := trace w ++ [ContainersGet "db"; line_cr "Dumping db..."] in
  let r := exec_result "db" (pg_dump_cmd DB_USER DB_NAME) h in
  dump_db services DB_USER DB_NAME exec_result f w =
  if (r.1 =? 0)%Z then
    (Returned true,
     World (<[f := r.2]> (fs w)) (containers w)
           (h ++ [ExecRun "db" (pg_dump_cmd DB_USER DB_NAME);
                  line "Db dumped    ";
                  FileOpenWrite f;
                  line_cr ("Writing dump to " +:+ f +:+ "...");
                  FileWrite f r.2;
                  line ("Dump written to " +:+ f +:+ "   ")]))
  else
    (Returned false,
     World (fs w) (containers w)
           (h ++ [ExecRun "db" (pg_dump_cmd DB_USER DB_NAME);
                  line "Error while dumping"])).
Proof.
  intros Hin Hst h r. unfold dump_db, db_container_name.
  rewrite (bind_returned _ _ _ _ _ (get_container_run services _ w)).
  rewrite (resolve_container _ _ _ Hin Hst), (get_events_declared _ Hin).
  py_unfold. subst r h. unfold pg_dump_cmd. py_trace.
  destruct (_ =? 0)%Z; py_unfold; py_trace; [| done].
  by rewrite insert_insert_eq.
Qed.

Lemma dump_db_unresolved f w :
  truthy (resolve services (containers w) "db") = false ->
  dump_db services DB_USER DB_NAME exec_result f w =
  (Raised (AttributeError (type_name_of (resolve services (containers w) "db"))
                          "exec_run"),
   add_events (get_events services "db" ++ [line_cr "Dumping db..."]) w).
Proof.
  intros Hr. unfold dump_db, db_container_name.
  rewrite (bind_returned _ _ _ _ _ (get_container_run services _ w)).
  destruct (resolve services (containers w) "db"); [| | done];
    py_unfold; by py_trace.
Qed.

Lemma create_db_run w st :
  "db" ∈ services -> containers w !! "db" = Some st ->
  let h := trace w ++ [ContainersGet "db"; line_cr "Creating db..."] in
  let r := exec_result "db" (createdb_cmd DB_USER DB_NAME) h in
  create_db services DB_USER DB_NAME exec_result w =
  (Returned (r.1 =? 0)%Z,
   World (fs w) (containers w)
         (h ++ [ExecRun "db" (createdb_cmd DB_USER DB_NAME);
                line (if (r.1 =? 0)%Z then "Db re-created "
                      else "Error while creating db")])).
Proof.
  intros Hin Hst h r. unfold create_db, db_container_name.
  rewrite (bind_returned _ _ _ _ _ (get_container_run services _ w)).
  rewrite (resolve_container _ _ _ Hin Hst), (get_events_declared _ Hin).
  py_unfold. subst r h. unfold createdb_cmd. py_trace.
  destruct (_ =? 0)%Z; py_unfold; by py_trace.
Qed.

Lemma create_db_unresolved w :
  truthy (resolve services (containers w) "db") = false ->
  create_db services DB_USER DB_NAME exec_result w =
  (Raised (AttributeError (type_name_of (resolve services (containers w) "db"))
                          "exec_run"),
   add_events (get_events services "db" ++ [line_cr "Creating db..."]) w).
Proof.
  intros Hr. unfold create_db, db_container_name.
  rewrite (bind_returned _ _ _ _ _ (get_container_run services _ w)).
  destruct (resolve services (containers w) "db"); [| | done];
    py_unfold; by py_trace.
Qed.

Lemma stopped_lookup_ne cs name n :
  n <> name -> stopped services cs name !! n = cs !! n.
Proof.
  intros Hne. unfold stopped.
  destruct (truthy _); [| done]. by rewrite lookup_insert_ne.
Qed.

Lemma started_lookup_ne cs name n :
  n <> name -> started services cs name !! n = cs !! n.
Proof.
  intros Hne. unfold started.
  destruct (truthy _); [| done]. by rewrite lookup_insert_ne.
Qed.

Lemma reset_db_run w st :
  "db" ∈ services -> containers w !! "db" = Some st ->
  let cs1 := stopped services (containers w) "backend" in
  let h1 := trace w ++ [ContainersGet "db"]
            ++ stop_events services (containers w) "backend"
            ++ [line_cr "Dropping db..."] in
  let drop := exec_result "db" (dropdb_cmd DB_USER DB_NAME) h1 in
  let h2 := h1 ++ [ExecRun "db" (dropdb_cmd DB_USER DB_NAME);
                   line (if (drop.1 =? 0)%Z then "Db dropped     "
                         else "Error while dropping db");
                   ContainersGet "db"; line_cr "Creating db..."] in
  let create := exec_result "db" (createdb_cmd DB_USER DB_NAME) h2 in
  let h3 := h2 ++ [ExecRun "db" (createdb_cmd DB_USER DB_NAME);
                   line (if (create.1 =? 0)%Z then "Db re-created "
                         else "Error while creating db")] in
  reset_db services DB_USER DB_NAME exec_result w =
  (Returned (drop.1 =? 0)%Z,
   World (fs w) (started services cs1 "backend")
         (h3 ++ start_events services cs1 "backend")).
Proof.
  intros Hin Hst cs1 h1 drop h2 create h3.
  unfold reset_db, db_container_name, django_container_name.
  rewrite (bind_returned _ _ _ _ _ (get_container_run services _ w)).
  rewrite (resolve_container _ _ _ Hin Hst), (get_events_declared _ Hin).
  rewrite (bind_returned _ _ _ _ _ (stop_container_run _ _)).
  cbn [add_events fs containers trace]. fold cs1.
  assert (Hst1 : cs1 !! "db" = Some st).
  { unfold cs1. by rewrite stopped_lookup_ne. }
  rewrite (bind_returned _ _ _ _ _ (print_cr_run _ _)).
  rewrite (bind_returned _ _ _ _ _ (exec_run_container _ _ _ _)).
  cbn [add_events fs containers trace]. py_trace.
  change (exec_result "db" (dropdb_cmd DB_USER DB_NAME) _) with drop.
  set (w4 := add_events [ExecRun _ _] _).
  assert (Hp : (if negb (drop.1 =? 0)%Z then print "Error while dropping db"
                else print "Db dropped     ") w4
               = (Returned tt,
                  add_events [line (if (drop.1 =? 0)%Z then "Db dropped     "
                                    else "Error while dropping db")] w4))
    by (by destruct (drop.1 =? 0)%Z).
  rewrite (bind_returned _ _ _ _ _ Hp). clear Hp.
  rewrite (bind_returned _ _ _ _ _ (create_db_run (add_events _ w4) st Hin Hst1)).
  rewrite (bind_returned _ _ _ _ _ (start_container_run _ _)).
  subst w4. cbn [add_events fs containers trace]. py_trace.
  subst h3 create h2 drop h1. unfold dropdb_cmd, createdb_cmd. py_trace.
  by destruct (_ =? 0)%Z.
Qed.

Lemma reset_db_unresolved w :
  truthy (resolve services (containers w) "db") = false ->
  reset_db services DB_USER DB_NAME exec_result w =
  (Raised (AttributeError (type_name_of (resolve services (containers w) "db"))
                          "exec_run"),
   World (fs w) (stopped services (containers w) "backend")
         (trace w ++ get_events services "db"
          ++ stop_events services (containers w) "backend"
          ++ [line_cr "Dropping db..."])).
Proof.
  intros Hr. unfold reset_db, db_container_name, django_container_name.
  rewrite (bind_returned _ _ _ _ _ (get_container_run services _ w)).
  rewrite (bind_returned _ _ _ _ _ (stop_container_run _ _)).
  rewrite (bind_returned _ _ _ _ _ (print_cr_run _ _)).
  cbn [add_events fs containers trace].
  destruct (resolve services (containers w) "db"); [| | done];
    py_unfold; by py_trace.
Qed.

Lemma isfile_run f w :
  isfile f w = (Returned (bool_decide (is_Some (fs w !! f))), w).
Proof. reflexivity. Qed.

Lemma restore_db_missing f w :
  fs w !! f = None ->
  restore_db services DB_USER exec_result f w =
  (Returned false,
   add_events [line ("File " +:+ dq +:+ f +:+ dq +:+ " doesn" +:+ sq
                     +:+ "t exists!")] w).
Proof.
  intros Hf. unfold restore_db.
  rewrite (bind_returned _ _ _ _ _ (isfile_run f w)).
  rewrite bool_decide_eq_false_2 by (rewrite Hf; by intros [? ?]).
  reflexivity.
Qed.

Lemma copy_to_container_run n st f data path w :
  fs w !! f = Some data ->
  copy_to_container (Container n st) f path w =
  (Returned tt, add_events [PutArchive n path (Archive f (length data) data)] w).
Proof.
  intros Hf. unfold copy_to_container, create_archive, bind, read_file.
  by rewrite Hf.
Qed.

Lemma copy_to_container_unresolved c f data path w :
  fs w !! f = Some data -> truthy c = false ->
  copy_to_container c f path w =
  (Raised (AttributeError (type_name_of c) "put_archive"), w).
Proof.
  intros Hf Hc. unfold copy_to_container, create_archive, bind, read_file.
  rewrite Hf. by destruct c.
Qed.

Lemma restore_db_run f data w st :
  fs w !! f = Some data ->
  "db" ∈ services -> containers w !! "db" = Some st ->
  let cs1 := stopped services (containers w) "backend" in
  let h1 := trace w ++ [ContainersGet "db"]
            ++ stop_events services (containers w) "backend"
            ++ [line_cr "Copying file to container...";
                PutArchive "db" "/tmp" (Archive f (length data) data);
                line "File copied to container    ";
                line_cr "Restoring db..."] in
  let r := exec_result "db" (pg_restore_cmd DB_USER f) h1 in
  restore_db services DB_USER exec_result f w =
  (Returned (r.1 =? 0)%Z,
   World (fs w) (started services cs1 "backend")
         (h1 ++ [ExecRun "db" (pg_restore_cmd DB_USER f)]
          ++ (if (r.1 =? 0)%Z then [line "Db restored    "] else [])
          ++ start_events services cs1 "backend"
          ++ (if (r.1 =? 0)%Z then [] else [line "Error while restoring"]))).
Proof.
  intros Hf Hin Hst cs1 h1 r.
  unfold restore_db, db_container_name, django_container_name.
  rewrite (bind_returned _ _ _ _ _ (isfile_run f w)).
  rewrite bool_decide_eq_true_2 by (rewrite Hf; eauto). cbn [negb].
  rewrite (bind_returned _ _ _ _ _ (get_container_run services _ w)).
  rewrite (resolve_container _ _ _ Hin Hst), (get_events_declared _ Hin).
  rewrite (bind_returned _ _ _ _ _ (stop_container_run _ _)).
  rewrite (bind_returned _ _ _ _ _ (print_cr_run _ _)).
  erewrite bind_returned; [| apply copy_to_container_run; exact Hf].
  rewrite (bind_returned _ _ _ _ _ (print_run _ _)).
  rewrite (bind_returned _ _ _ _ _ (print_cr_run _ _)).
  rewrite (bind_returned _ _ _ _ _ (exec_run_container _ _ _ _)).
  cbn [add_events fs containers trace]. py_trace. fold cs1.
  change (exec_result "db" _ _) with r.
  destruct (r.1 =? 0)%Z; cbn [when negb].
  - rewrite (bind_returned _ _ _ _ _ (print_run _ _)).
    rewrite (bind_returned _ _ _ _ _ (start_container_run _ _)).
    cbn [add_events fs containers trace]. unfold ret. subst h1. py_trace.
    by rewrite app_nil_r.
  - unfold ret at 1. unfold bind at 1.
    rewrite (bind_returned _ _ _ _ _ (start_container_run _ _)).
    cbn [add_events fs containers trace]. py_unfold. subst h1. by py_trace.
Qed.

Lemma restore_db_unresolved f data w :
  fs w !! f = Some data ->
  truthy (resolve services (containers w) "db") = false ->
  restore_db services DB_USER exec_result f w =
  (Raised (AttributeError (type_name_of (resolve services (containers w) "db"))
                          "put_archive"),
   World (fs w) (stopped services (containers w) "backend")
         (trace w ++ get_events services "db"
          ++ stop_events services (containers w) "backend"
          ++ [line_cr "Copying file to container..."])).
Proof.
  intros Hf Hr.
  unfold restore_db, db_container_name, django_container_name.
  rewrite (bind_returned _ _ _ _ _ (isfile_run f w)).
  rewrite bool_decide_eq_true_2 by (rewrite Hf; eauto). cbn [negb].
  rewrite (bind_returned _ _ _ _ _ (get_container_run services _ w)).
  rewrite (bind_returned _ _ _ _ _ (stop_container_run _ _)).
  rewrite (bind_returned _ _ _ _ _ (print_cr_run _ _)).
  erewrite bind_raised; [| apply (copy_to_container_unresolved _ f data); [exact Hf | exact Hr]].
  unfold add_events. cbn [fs containers trace]. by py_trace.
Qed.

End Operations.

(** ** The dispatcher *)

Section Dispatcher.

Variable services : list string.
Variables DB_USER DB_NAME : option string.
Variable exec_result : string -> string -> list event -> Z * bytes.

Lemma main_run argv w :
  exists probed,
    sublist probed services /\
    main services DB_USER DB_NAME exec_result argv w =
    dispatch services DB_USER DB_NAME exec_result argv
      (bool_decide (stack_running services (containers w)))
      (World (foldr delete (fs w) (generated_migrations (fs w))) (containers w)
             (trace w ++ (ContainersGet <$> probed)
              ++ (OsRemove <$> generated_migrations (fs w)))).
Proof.
  destruct (are_containers_running_run services w) as (probed & Hsub & Hrun).
  exists probed. split; [done |]. unfold main.
  rewrite (bind_returned _ _ _ _ _ Hrun).
  rewrite (bind_returned _ _ _ _ _ (delete_migrations_run _)).
  cbn [add_events fs containers trace]. by py_trace.
Qed.

Lemma print_lines_run lines w :
  print_lines lines w = (Returned tt, add_events (line <$> lines) w).
Proof.
  revert w. induction lines as [|l lines IH]; intros w.
  - cbn. unfold ret. by rewrite add_events_nil.
  - cbn [print_lines]. rewrite (bind_returned _ _ _ _ _ (print_run _ _)).
    rewrite IH. by rewrite add_events_app.
Qed.

Lemma print_usage_run w :
  print_usage w = (Returned tt, add_events usage_output w).
Proof. apply print_lines_run. Qed.

Lemma ungated_false cmd :
  ungated cmd = false ->
  String.eqb cmd "-h" || String.eqb cmd "--help" || String.eqb cmd "help" = false
  /\ String.eqb cmd "build" = false /\ String.eqb cmd "up" = false.
Proof.
  unfold ungated. intros H.
  apply orb_false_elim in H as [H Hup]. apply orb_false_elim in H as [H Hbuild].
  done.
Qed.

Lemma dispatch_gate prog cmd rest w :
  ungated cmd = false ->
  dispatch services DB_USER DB_NAME exec_result (prog :: cmd :: rest) false w =
  (Returned tt, add_events [run_up_first cmd] w).
Proof.
  intros H. apply ungated_false in H as (Hh & Hb & Hu).
  unfold dispatch, argv_at. cbn [length Nat.eqb lookup list_lookup].
  unfold bind, ret. by rewrite Hh, Hb, Hu.
Qed.

Lemma dispatch_not_found prog cmd rest w :
  recognized cmd = false ->
  dispatch services DB_USER DB_NAME exec_result (prog :: cmd :: rest) true w =
  (Returned tt, add_events (not_found_output cmd) w).
Proof.
  unfold recognized. intros H.
  do 7 (apply orb_false_elim in H as [H ?]).
  apply ungated_false in H as (Hh & Hb & Hu).
  unfold dispatch, argv_at. cbn [length Nat.eqb lookup list_lookup].
  unfold bind at 1. unfold ret at 1.
  repeat match goal with E : String.eqb cmd _ = false |- _ => rewrite E; clear E end.
  rewrite Hh. cbn [negb].
  rewrite (bind_returned _ _ _ _ _ (print_run _ _)).
  rewrite print_usage_run. by rewrite add_events_app.
Qed.

Lemma dispatch_shell_missing prog w :
  dispatch services DB_USER DB_NAME exec_result [prog; "shell"] true w =
  (Raised IndexError, add_events [line "Missing container name!"] w).
Proof. reflexivity. Qed.

End Dispatcher.

(** ** The claims of the specification *)

Section Claims.

Variable services : list string.
Variables DB_USER DB_NAME : option string.
Variable exec_result : string -> string -> list event -> Z * bytes.

Lemma prelude_no_action probed gens out :
  Forall (fun e => console_output e = true) out ->
  Forall (fun e => action_event e = false)
    ((ContainersGet <$> probed) ++ (OsRemove <$> gens) ++ out).
Proof.
  intros Hout. rewrite !Forall_app, !Forall_fmap. repeat split.
  - by apply Forall_true.
  - by apply Forall_true.
  - eapply Forall_impl; [exact Hout |]. by intros [].
Qed.

Lemma usage_output_console : Forall (fun e => console_output e = true) usage_output.
Proof. unfold usage_output. rewrite Forall_fmap. by apply Forall_true. Qed.

Lemma lookup_after_delete_migrations (m : gmap string bytes) p :
  foldr delete m (generated_migrations m) !! p =
  if bool_decide (p ∈ generated_migrations m) then None else m !! p.
Proof.
  case_bool_decide.
  - by apply lookup_foldr_delete.
  - by apply lookup_foldr_delete_not_elem_of.
Qed.

Lemma generated_migrations_gone (m : gmap string bytes) p :
  glob_match "backend/*/migrations/*.py" p = true
  /\ contains "__init__.py" p = false
  \/ glob_match "backend/*/migrations/*.pyc" p = true ->
  foldr delete m (generated_migrations m) !! p = None.
Proof.
  intros Hp. rewrite lookup_after_delete_migrations.
  case_bool_decide as Hin; [done |].
  destruct (m !! p) eqn:Hfs; [| done]. exfalso. apply Hin.
  apply elem_of_generated_migrations. rewrite Hfs. eauto.
Qed.

Lemma no_generated_migrations_left (m : gmap string bytes) :
  generated_migrations (foldr delete m (generated_migrations m)) = [].
Proof.
  apply elem_of_nil_inv. intros p Hp.
  apply elem_of_generated_migrations in Hp as [[x Hx] Hp].
  by rewrite (generated_migrations_gone m p Hp) in Hx.
Qed.

Lemma resolve_stopped_same cs name :
  truthy (resolve services (stopped services cs name) name)
  = truthy (resolve services cs name).
Proof.
  unfold stopped, resolve. case_bool_decide; [| done].
  destruct (cs !! name) eqn:Hcs; cbn [truthy]; [| by rewrite Hcs].
  by rewrite lookup_insert_eq.
Qed.

Lemma resolve_truthy cs name :
  name ∈ services -> is_Some (cs !! name) ->
  truthy (resolve services cs name) = true.
Proof.
  intros Hin [st Hst]. by rewrite (resolve_container services name st cs).
Qed.

(** After a [stop_container], a [start_container] of a declared, existing
    container does call [start()] and leaves it running. *)
Lemma start_after_stop_effective cs name :
  name ∈ services -> is_Some (cs !! name) ->
  let cs1 := stopped services cs name in
  ContainerStart name ∈ start_events services cs1 name
  /\ started services cs1 name !! name = Some "running".
Proof.
  intros Hin Hsome cs1.
  assert (Ht : truthy (resolve services cs1 name) = true).
  { unfold cs1. rewrite resolve_stopped_same. by apply resolve_truthy. }
  unfold start_events, started. rewrite Ht. split.
  - unfold start_output. set_solver.
  - by rewrite lookup_insert_eq.
Qed.

Lemma stop_events_quiet cs name :
  Forall (fun e => fs_modification e = false /\ subprocess_call e = false
                   /\ db_call e = false)
    (stop_events services cs name).
Proof.
  unfold stop_events, get_events, stop_output, cannot_stop.
  case_bool_decide; destruct (truthy _); by repeat constructor.
Qed.


Lemma get_events_quiet name :
  Forall (fun e => fs_modification e = false /\ subprocess_call e = false
                   /\ db_call e = false)
    (get_events services name).
Proof. unfold get_events. case_bool_decide; by repeat constructor. Qed.

Lemma unresolved_falsy cs :
  "db" ∉ services \/ cs !! "db" = None ->
  truthy (resolve services cs "db") = false
  /\ type_name_of (resolve services cs "db")
     = if bool_decide ("db" ∈ services) then "NoneType" else "bool".
Proof.
  unfold resolve. intros [Hd | Hd].
  - by rewrite bool_decide_eq_false_2.
  - rewrite Hd. by case_bool_decide.
Qed.

(** C1, as the code has it.  For a first argument that is none of the
    recognized names, [main] looks up the status of the declared services and
    removes the generated migrations, as on every run; it then prints the
    not-found message followed by the usage catalogue when every declared
    service is running, and the request to run [up] first otherwise.  In both
    cases the run contains no container method call, no subprocess and no file
    write, the containers are left as they were and every file that is not a
    generated migration is left as it was. *)
Theorem unknown_command_run prog cmd rest w :
  recognized cmd = false ->
  exists probed w',
    sublist probed services /\
    main services DB_USER DB_NAME exec_result (prog :: cmd :: rest) w
    = (Returned tt, w') /\
    trace w' = trace w ++ (ContainersGet <$> probed)
               ++ (OsRemove <$> generated_migrations (fs w))
               ++ (if bool_decide (stack_running services (containers w))
                   then not_found_output cmd
                   else [run_up_first cmd]) /\
    containers w' = containers w /\
    (forall p, p ∉ generated_migrations (fs w) -> fs w' !! p = fs w !! p) /\
    Forall (fun e => action_event e = false)
      ((ContainersGet <$> probed) ++ (OsRemove <$> generated_migrations (fs w))
       ++ (if bool_decide (stack_running services (containers w))
           then not_found_output cmd
           else [run_up_first cmd])).
Proof.
  intros Hcmd.
  destruct (main_run services DB_USER DB_NAME exec_result (prog :: cmd :: rest) w)
    as (probed & Hsub & Hmain).
  assert (Hu : ungated cmd = false).
  { unfold recognized in Hcmd. by do 7 (apply orb_false_elim in Hcmd as [Hcmd _]). }
  assert (Hkeep : forall p, p ∉ generated_migrations (fs w) ->
            foldr delete (fs w) (generated_migrations (fs w)) !! p = fs w !! p).
  { intros p Hp. by apply lookup_foldr_delete_not_elem_of. }
  destruct (bool_decide (stack_running services (containers w))).
  - rewrite (dispatch_not_found _ _ _ _ _ _ _ _ Hcmd) in Hmain.
    eexists probed, _. split; [done |]. split; [exact Hmain |].
    cbn [add_events trace containers fs]. split; [by rewrite <- !app_assoc |].
    do 2 (split; [done |]). apply prelude_no_action.
    constructor; [done |]. apply usage_output_console.
  - rewrite (dispatch_gate _ _ _ _ _ _ _ _ Hu) in Hmain.
    eexists probed, _. split; [done |]. split; [exact Hmain |].
    cbn [add_events trace containers fs]. split; [by rewrite <- !app_assoc |].
    do 2 (split; [done |]). apply prelude_no_action. by repeat constructor.
Qed.

(** C2.  [dump] without a file name writes to [db.dump], with a file name to
    that name: when the export tool exits with status 0 the bytes it printed
    become the content of that file and [dump_db] returns [True]; when it exits
    with another status no file is opened or written, the filesystem is
    unchanged and [dump_db] returns [False]. *)
Theorem dump_writes_named_file prog rest w st :
  "db" ∈ services -> containers w !! "db" = Some st ->
  let f := match rest with
           | [] => "db.dump"
           | a :: _ => a
           end in
  let r := exec_result "db" (pg_dump_cmd DB_USER DB_NAME)
             (trace w ++ [ContainersGet "db"; line_cr "Dumping db..."]) in
  exists w' new,
    dispatch services DB_USER DB_NAME exec_result (prog :: "dump" :: rest) true w
    = (Returned tt, w') /\
    dump_db services DB_USER DB_NAME exec_result f w
    = (Returned (r.1 =? 0)%Z, w') /\
    trace w' = trace w ++ new /\
    containers w' = containers w /\
    (r.1 = 0%Z -> fs w' = <[f := r.2]> (fs w) /\ FileWrite f r.2 ∈ new) /\
    (r.1 <> 0%Z ->
     fs w' = fs w /\ Forall (fun e => fs_modification e = false) new).
Proof.
  intros Hin Hst f r.
  pose proof (dump_db_run services DB_USER DB_NAME exec_result f w st Hin Hst) as Hrun.
  cbv zeta in Hrun. fold r in Hrun.
  assert (Hd : dispatch services DB_USER DB_NAME exec_result (prog :: "dump" :: rest) true w
               = bind (dump_db services DB_USER DB_NAME exec_result f) (fun _ => ret tt) w).
  { subst f. by destruct rest. }
  rewrite Hd. unfold bind. rewrite Hrun.
  destruct (r.1 =? 0)%Z eqn:Hr.
  - apply Z.eqb_eq in Hr. eexists _, _. split; [reflexivity |].
    split; [reflexivity |]. cbn [trace fs containers].
    split; [by rewrite <- app_assoc |]. split; [done |]. split; [| done].
    intros _. split; [done |]. set_solver.
  - apply Z.eqb_neq in Hr. eexists _, _. split; [reflexivity |].
    split; [reflexivity |]. cbn [trace fs containers].
    split; [by rewrite <- app_assoc |]. split; [done |]. split; [done |].
    intros _. split; [done |]. by repeat constructor.
Qed.

(** C3.  For a file name that is not on the local filesystem, [restore_db]
    returns [False] having only printed the complaint: files and containers
    are untouched and no call reaches the container runtime (no lookup, no
    stop, no copy, no import, no start). *)
Theorem restore_missing_file_no_runtime_call f w :
  fs w !! f = None ->
  exists w' new,
    restore_db services DB_USER exec_result f w = (Returned false, w') /\
    fs w' = fs w /\ containers w' = containers w /\
    trace w' = trace w ++ new /\
    new = [line ("File " +:+ dq +:+ f +:+ dq +:+ " doesn" +:+ sq +:+ "t exists!")] /\
    Forall (fun e => runtime_call e = false) new.
Proof.
  intros Hf. eexists _, _. split; [by apply restore_db_missing |].
  repeat split; by repeat constructor.
Qed.

(** C4.  With the dump file present and the [db] container resolvable,
    [restore_db] always reaches [start_container] on the backend after the
    [pg_restore] call, whatever its exit status: the events of that
    [start_container] follow the import in the trace and, when the backend
    container is declared and exists, they include its [start()] and leave it
    running.  The value returned is [True] exactly when [pg_restore] exited
    with status 0; on another status the error line is printed, and [False]
    returned, only after the restart. *)
Theorem restore_db_restarts_backend f data w st :
  fs w !! f = Some data ->
  "db" ∈ services -> containers w !! "db" = Some st ->
  exists before between after w',
    let r := exec_result "db" (pg_restore_cmd DB_USER f) (trace w ++ before) in
    let restart :=
      start_events services (stopped services (containers w) "backend") "backend" in
    restore_db services DB_USER exec_result f w = (Returned (r.1 =? 0)%Z, w') /\
    trace w' = trace w ++ before
               ++ ExecRun "db" (pg_restore_cmd DB_USER f) :: between
               ++ restart ++ after /\
    between = (if (r.1 =? 0)%Z then [line "Db restored    "] else []) /\
    after = (if (r.1 =? 0)%Z then [] else [line "Error while restoring"]) /\
    ("backend" ∈ services -> is_Some (containers w !! "backend") ->
     ContainerStart "backend" ∈ restart
     /\ containers w' !! "backend" = Some "running").
Proof.
  intros Hf Hin Hst.
  pose proof (restore_db_run services DB_USER exec_result f data w st Hf Hin Hst)
    as Hrun.
  cbv zeta in Hrun.
  match type of Hrun with
  | context [exec_result "db" _ (trace w ++ ?b)] => set (before := b) in *
  end.
  set (r := exec_result "db" (pg_restore_cmd DB_USER f) (trace w ++ before)) in *.
  exists before,
    (if (r.1 =? 0)%Z then [line "Db restored    "] else []),
    (if (r.1 =? 0)%Z then [] else [line "Error while restoring"]).
  eexists. cbv zeta.
  split; [exact Hrun |]. cbn [trace containers]. split; [| split; [| split]].
  - rewrite <- app_assoc. reflexivity.
  - reflexivity.
  - reflexivity.
  - intros Hb Hsome. by apply start_after_stop_effective.
Qed.

(** C5.  For each of [shell], [down], [dump], [restore], [resetdb],
    [resetdjango] and [manage]: when some declared service is not running,
    [main] looks the services up, removes the generated migrations, prints
    the request to run [up] first and returns.  Nothing follows that message,
    and the whole run contains no container method call, no subprocess and no
    file write: the command's action is not performed. *)
Theorem gate_blocks_stack_dependent_commands prog cmd rest w :
  cmd ∈ stack_dependent ->
  ~ stack_running services (containers w) ->
  exists probed w',
    sublist probed services /\
    main services DB_USER DB_NAME exec_result (prog :: cmd :: rest) w
    = (Returned tt, w') /\
    trace w' = trace w ++ (ContainersGet <$> probed)
               ++ (OsRemove <$> generated_migrations (fs w))
               ++ [run_up_first cmd] /\
    containers w' = containers w /\
    Forall (fun e => action_event e = false)
      ((ContainersGet <$> probed) ++ (OsRemove <$> generated_migrations (fs w))
       ++ [run_up_first cmd]).
Proof.
  intros Hcmd Hdown.
  destruct (main_run services DB_USER DB_NAME exec_result (prog :: cmd :: rest) w)
    as (probed & Hsub & Hmain).
  rewrite (bool_decide_eq_false_2 _ Hdown) in Hmain.
  assert (Hu : ungated cmd = false).
  { unfold stack_dependent in Hcmd.
    repeat (apply elem_of_cons in Hcmd as [-> | Hcmd]; [reflexivity |]).
    by apply elem_of_nil in Hcmd. }
  rewrite (dispatch_gate _ _ _ _ _ _ _ _ Hu) in Hmain.
  eexists probed, _. split; [done |]. split; [exact Hmain |].
  cbn [add_events trace containers]. split; [by rewrite <- !app_assoc |].
  split; [done |]. apply prelude_no_action. by repeat constructor.
Qed.



(** C7.  With the [db] container resolvable, [reset_db] runs to its end
    whatever [dropdb] answers: after the [dropdb] call come the [createdb]
    call and then the events of [start_container] on the backend, which, when
    the backend container is declared and exists, include its [start()] and
    leave it running.  The value returned is [True] exactly when [dropdb]
    exited with status 0; the status of [createdb] plays no part in it. *)
Theorem reset_db_drop_failure_no_short_circuit w st :
  "db" ∈ services -> containers w !! "db" = Some st ->
  exists before between out w',
    let drop := exec_result "db" (dropdb_cmd DB_USER DB_NAME) (trace w ++ before) in
    let restart :=
      start_events services (stopped services (containers w) "backend") "backend" in
    reset_db services DB_USER DB_NAME exec_result w
    = (Returned (drop.1 =? 0)%Z, w') /\
    trace w' = trace w ++ before
               ++ ExecRun "db" (dropdb_cmd DB_USER DB_NAME) :: between
               ++ ExecRun "db" (createdb_cmd DB_USER DB_NAME) :: out :: restart /\
    console_output out = true /\
    ("backend" ∈ services -> is_Some (containers w !! "backend") ->
     ContainerStart "backend" ∈ restart
     /\ containers w' !! "backend" = Some "running").
Proof.
  intros Hin Hst.
  pose proof (reset_db_run services DB_USER DB_NAME exec_result w st Hin Hst) as Hrun.
  cbv zeta in Hrun.
  set (before := [ContainersGet "db"]
                 ++ stop_events services (containers w) "backend"
                 ++ [line_cr "Dropping db..."]) in *.
  set (drop := exec_result "db" (dropdb_cmd DB_USER DB_NAME) (trace w ++ before)) in *.
  set (between := [line (if (drop.1 =? 0)%Z then "Db dropped     "
                         else "Error while dropping db");
                   ContainersGet "db"; line_cr "Creating db..."]).
  match type of Hrun with
  | context [[ExecRun "db" (createdb_cmd DB_USER DB_NAME); ?o]] => set (out := o) in *
  end.
  exists before, between, out. eexists. cbv zeta.
  split; [exact Hrun |]. cbn [trace containers]. split; [| split].
  - unfold between. rewrite <- !app_assoc. reflexivity.
  - reflexivity.
  - intros Hb Hsome. by apply start_after_stop_effective.
Qed.


(** C9, the failing run.  [shell] without a container name, with every
    declared service running: [main] prints the complaint about the missing
    name and then evaluates [sys.argv[2]] all the same, so the run ends in an
    [IndexError] that nothing catches. *)
Theorem shell_without_name_raises prog w :
  stack_running services (containers w) ->
  exists probed w',
    main services DB_USER DB_NAME exec_result [prog; "shell"] w
    = (Raised IndexError, w') /\
    trace w' = trace w ++ (ContainersGet <$> probed)
               ++ (OsRemove <$> generated_migrations (fs w))
               ++ [line "Missing container name!"].
Proof.
  intros Hup.
  destruct (main_run services DB_USER DB_NAME exec_result [prog; "shell"] w)
    as (probed & Hsub & Hmain).
  rewrite (bool_decide_eq_true_2 _ Hup), dispatch_shell_missing in Hmain.
  eexists probed, _. split; [exact Hmain |].
  cbn [add_events trace]. by rewrite <- !app_assoc.
Qed.

(** C10.  When the [db] service is not declared in the compose file
    ([get_container] answers [False]) or the runtime has no such container
    (it answers [None]), the four operations use that answer as a container:
    [dump_db], [create_db] and [reset_db] raise [AttributeError] on
    [exec_run], and [restore_db], once past its check that the dump file
    exists, raises it on [put_archive].  None of them returns a boolean, and
    up to the exception no [exec_run] and no [put_archive] has been made. *)
Theorem db_lookup_unchecked w :
  "db" ∉ services \/ containers w !! "db" = None ->
  let ty := if bool_decide ("db" ∈ services) then "NoneType" else "bool" in
  let raises {A} (run : outcome A * world) (attr : string) :=
    exists new,
      run.1 = Raised (AttributeError ty attr) /\
      trace run.2 = trace w ++ new /\
      Forall (fun e => db_call e = false) new in
  (forall f, raises (dump_db services DB_USER DB_NAME exec_result f w) "exec_run") /\
  raises (create_db services DB_USER DB_NAME exec_result w) "exec_run" /\
  raises (reset_db services DB_USER DB_NAME exec_result w) "exec_run" /\
  (forall f, is_Some (fs w !! f) ->
             raises (restore_db services DB_USER exec_result f w) "put_archive").
Proof.
  intros Hdb ty raises.
  destruct (unresolved_falsy (containers w) Hdb) as [Hfalsy Hty]. fold ty in Hty.
  assert (Hquiet : forall l,
      Forall (fun e => fs_modification e = false /\ subprocess_call e = false
                       /\ db_call e = false) l ->
      Forall (fun e => db_call e = false) l).
  { intros l Hl. eapply Forall_impl; [exact Hl |]. intros e (? & ? & ?). auto. }
  unfold raises. repeat split.
  - intros f. rewrite (dump_db_unresolved _ _ _ _ _ _ Hfalsy), Hty.
    eexists. split; [reflexivity |]. split; [reflexivity |].
    rewrite Forall_app. split; [apply Hquiet, get_events_quiet | by repeat constructor].
  - rewrite (create_db_unresolved _ _ _ _ _ Hfalsy), Hty.
    eexists. split; [reflexivity |]. split; [reflexivity |].
    rewrite Forall_app. split; [apply Hquiet, get_events_quiet | by repeat constructor].
  - rewrite (reset_db_unresolved _ _ _ _ _ Hfalsy), Hty.
    eexists. split; [reflexivity |]. split; [reflexivity |].
    rewrite !Forall_app.
    split; [apply Hquiet, get_events_quiet |].
    split; [apply Hquiet, stop_events_quiet | by repeat constructor].
  - intros f [data Hf].
    rewrite (restore_db_unresolved _ _ _ _ _ _ Hf Hfalsy), Hty.
    eexists. split; [reflexivity |]. split; [reflexivity |].
    rewrite !Forall_app.
    split; [apply Hquiet, get_events_quiet |].
    split; [apply Hquiet, stop_events_quiet | by repeat constructor].
Qed.

End Claims.

(** ** The claims at the sample environments *)

Lemma db_declared : "db" ∈ sample_services.
Proof. unfold sample_services. set_solver. Defined.

Lemma sample_stack_running : stack_running sample_services (containers sample_world).
Proof.
  unfold stack_running, sample_services.
  repeat (constructor; [vm_compute; reflexivity |]). constructor.
Defined.

Lemma sample_stack_down :
  ~ stack_running sample_services (containers sample_world_down).
Proof.
  unfold stack_running, sample_services. intros H.
  apply Forall_cons in H as [_ H]. apply Forall_cons in H as [H _].
  vm_compute in H. discriminate H.
Defined.

(** C1 as stated fails.  With both services running, the unknown command
    [frobnicate] makes [main] call the container runtime twice and remove the
    two generated migrations from the filesystem; with the backend down the
    only thing printed is the request to run [up] first, not the not-found
    message. *)
Lemma unknown_command_has_side_effects :
  recognized "frobnicate" = false /\
  (let run := main sample_services None None exec_ok
                ["containers.py"; "frobnicate"] sample_world in
   run.1 = Returned tt /\
   fs sample_world !! "backend/shop/migrations/0001_initial.py" = Some [Byte.x23] /\
   fs run.2 !! "backend/shop/migrations/0001_initial.py" = None /\
   List.filter side_effect (trace run.2)
   = [ContainersGet "db"; ContainersGet "backend";
      OsRemove "backend/shop/migrations/0001_initial.py";
      OsRemove "backend/shop/migrations/0001_initial.pyc"]) /\
  (let run := main sample_services None None exec_ok
                ["containers.py"; "frobnicate"] sample_world_down in
   List.filter console_output (trace run.2) = [run_up_first "frobnicate"]).
Proof. vm_compute. repeat split. Qed.

Lemma unknown_command_run_witness :
  exists probed w',
    sublist probed sample_services /\
    main sample_services None None exec_ok ["containers.py"; "frobnicate"] sample_world
    = (Returned tt, w') /\
    trace w' = trace sample_world ++ (ContainersGet <$> probed)
               ++ (OsRemove <$> generated_migrations (fs sample_world))
               ++ (if bool_decide (stack_running sample_services
                                     (containers sample_world))
                   then not_found_output "frobnicate"
                   else [run_up_first "frobnicate"]) /\
    containers w' = containers sample_world /\
    (forall p, p ∉ generated_migrations (fs sample_world) ->
               fs w' !! p = fs sample_world !! p) /\
    Forall (fun e => action_event e = false)
      ((ContainersGet <$> probed)
       ++ (OsRemove <$> generated_migrations (fs sample_world))
       ++ (if bool_decide (stack_running sample_services
                             (containers sample_world))
           then not_found_output "frobnicate"
           else [run_up_first "frobnicate"])).
Proof. apply unknown_command_run. reflexivity. Defined.

Lemma dump_writes_named_file_witness :
  let r := exec_ok "db" (pg_dump_cmd None None)
             (trace sample_world ++ [ContainersGet "db"; line_cr "Dumping db..."]) in
  exists w' new,
    dispatch sample_services None None exec_ok
      ["containers.py"; "dump"; "custom.dump"] true sample_world
    = (Returned tt, w') /\
    dump_db sample_services None None exec_ok "custom.dump" sample_world
    = (Returned (r.1 =? 0)%Z, w') /\
    trace w' = trace sample_world ++ new /\
    containers w' = containers sample_world /\
    (r.1 = 0%Z ->
     fs w' = <["custom.dump" := r.2]> (fs sample_world)
     /\ FileWrite "custom.dump" r.2 ∈ new) /\
    (r.1 <> 0%Z ->
     fs w' = fs sample_world /\ Forall (fun e => fs_modification e = false) new).
Proof.
  apply (dump_writes_named_file sample_services None None exec_ok
           "containers.py" ["custom.dump"] sample_world "running").
  - exact db_declared.
  - reflexivity.
Defined.

Lemma restore_missing_file_witness :
  exists w' new,
    restore_db sample_services None exec_ok "missing.dump" sample_world
    = (Returned false, w') /\
    fs w' = fs sample_world /\ containers w' = containers sample_world /\
    trace w' = trace sample_world ++ new /\
    new = [line ("File " +:+ dq +:+ "missing.dump" +:+ dq +:+ " doesn" +:+ sq
                 +:+ "t exists!")] /\
    Forall (fun e => runtime_call e = false) new.
Proof. apply restore_missing_file_no_runtime_call. reflexivity. Defined.

Lemma restore_db_restarts_backend_witness :
  exists before between after w',
    let r := exec_fail "db" (pg_restore_cmd None "db.dump")
               (trace sample_world ++ before) in
    let restart :=
      start_events sample_services
        (stopped sample_services (containers sample_world) "backend") "backend" in
    restore_db sample_services None exec_fail "db.dump" sample_world
    = (Returned (r.1 =? 0)%Z, w') /\
    trace w' = trace sample_world ++ before
               ++ ExecRun "db" (pg_restore_cmd None "db.dump") :: between
               ++ restart ++ after /\
    between = (if (r.1 =? 0)%Z then [line "Db restored    "] else []) /\
    after = (if (r.1 =? 0)%Z then [] else [line "Error while restoring"]) /\
    ("backend" ∈ sample_services ->
     is_Some (containers sample_world !! "backend") ->
     ContainerStart "backend" ∈ restart
     /\ containers w' !! "backend" = Some "running").
Proof.
  apply (restore_db_restarts_backend sample_services None exec_fail
           "db.dump" [Byte.x50; Byte.x47] sample_world "running").
  - reflexivity.
  - exact db_declared.
  - reflexivity.
Defined.

Lemma gate_blocks_stack_dependent_commands_witness :
  exists probed w',
    sublist probed sample_services /\
    main sample_services None None exec_ok ["containers.py"; "resetdb"]
      sample_world_down
    = (Returned tt, w') /\
    trace w' = trace sample_world_down ++ (ContainersGet <$> probed)
               ++ (OsRemove <$> generated_migrations (fs sample_world_down))
               ++ [run_up_first "resetdb"] /\
    containers w' = containers sample_world_down /\
    Forall (fun e => action_event e = false)
      ((ContainersGet <$> probed)
       ++ (OsRemove <$> generated_migrations (fs sample_world_down))
       ++ [run_up_first "resetdb"]).
Proof.
  apply gate_blocks_stack_dependent_commands.
  - unfold stack_dependent. set_solver.
  - exact sample_stack_down.
Defined.




Lemma reset_db_drop_failure_witness :
  exists before between out w',
    let drop := exec_drop_fails "db" (dropdb_cmd None None)
                  (trace sample_world ++ before) in
    let restart :=
      start_events sample_services
        (stopped sample_services (containers sample_world) "backend") "backend" in
    reset_db sample_services None None exec_drop_fails sample_world
    = (Returned (drop.1 =? 0)%Z, w') /\
    trace w' = trace sample_world ++ before
               ++ ExecRun "db" (dropdb_cmd None None) :: between
               ++ ExecRun "db" (createdb_cmd None None) :: out :: restart /\
    console_output out = true /\
    ("backend" ∈ sample_services ->
     is_Some (containers sample_world !! "backend") ->
     ContainerStart "backend" ∈ restart
     /\ containers w' !! "backend" = Some "running").
Proof.
  apply (reset_db_drop_failure_no_short_circuit sample_services None None
           exec_drop_fails sample_world "running").
  - exact db_declared.
  - reflexivity.
Defined.

Lemma shell_without_name_raises_witness :
  exists probed w',
    main sample_services None None exec_ok ["containers.py"; "shell"] sample_world
    = (Raised IndexError, w') /\
    trace w' = trace sample_world ++ (ContainersGet <$> probed)
               ++ (OsRemove <$> generated_migrations (fs sample_world))
               ++ [line "Missing container name!"].
Proof. apply shell_without_name_raises. exact sample_stack_running. Defined.

Lemma db_lookup_unchecked_witness :
  let ty := if bool_decide ("db" ∈ sample_services) then "NoneType" else "bool" in
  let raises {A} (run : outcome A * world) (attr : string) :=
    exists new,
      run.1 = Raised (AttributeError ty attr) /\
      trace run.2 = trace sample_world_no_db ++ new /\
      Forall (fun e => db_call e = false) new in
  (forall f, raises (dump_db sample_services None None exec_ok f sample_world_no_db)
               "exec_run") /\
  raises (create_db sample_services None None exec_ok sample_world_no_db) "exec_run" /\
  raises (reset_db sample_services None None exec_ok sample_world_no_db) "exec_run" /\
  (forall f, is_Some (fs sample_world_no_db !! f) ->
             raises (restore_db sample_services None exec_ok f sample_world_no_db)
               "put_archive").
Proof.
  apply (db_lookup_unchecked sample_services None None exec_ok sample_world_no_db).
  right. reflexivity.
Defined.

(** ** Further properties of the script *)

Section Properties.

Variable services : list string.
Variables DB_USER DB_NAME : option string.
Variable exec_result : string -> string -> list event -> Z * bytes.

Lemma running_loop_short_circuit l w :
  Forall (fun c => c ∈ services) l ->
  exists probed,
    running_loop services l w
    = (Returned (bool_decide (Forall (fun c => containers w !! c = Some "running") l)),
       add_events (ContainersGet <$> probed) w) /\
    (Forall (fun c => containers w !! c = Some "running") l /\ probed = l
     \/ exists init c rest,
          l = init ++ c :: rest /\ probed = init ++ [c] /\
          Forall (fun c => containers w !! c = Some "running") init /\
          containers w !! c <> Some "running").
Proof.
  revert w. induction l as [|c l IH]; intros w Hdecl.
  - exists []. split; [| left; split; [constructor | done]].
    cbn. unfold ret. rewrite add_events_nil. f_equal.
  - apply Forall_cons in Hdecl as [Hc Hdecl].
    cbn [running_loop].
    rewrite (bind_returned _ _ _ _ _ (is_running_run services c w)).
    unfold get_events. rewrite (bool_decide_eq_true_2 _ Hc).
    case_bool_decide as Hrun.
    + destruct Hrun as [_ Hrun].
      destruct (IH (add_events [ContainersGet c] w) Hdecl) as (probed & Heq & Hcase).
      cbn [add_events containers] in Heq, Hcase.
      exists (c :: probed). split.
      * rewrite Heq, add_events_app. f_equal. f_equal.
        apply bool_decide_ext. rewrite Forall_cons. tauto.
      * destruct Hcase as [[Hall ->] | (init & n & rest & -> & -> & Hinit & Hn)].
        -- left. split; [by constructor | done].
        -- right. exists (c :: init), n, rest. repeat split; [by constructor | done].
    + exists [c]. split.
      * unfold ret. f_equal. f_equal. symmetry. apply bool_decide_eq_false_2.
        rewrite Forall_cons. unfold running_in in Hrun. tauto.
      * right. exists [], c, l. repeat split; [constructor |].
        unfold running_in in Hrun. tauto.
Qed.

(** X1.  [are_containers_running] answers [True] exactly when every declared
    service has a container whose status is [running].  It asks the runtime
    about the services in the order of the compose file and stops at the first
    one that is not running; it does nothing but these lookups. *)
Theorem are_containers_running_short_circuit w :
  exists probed,
    are_containers_running services w
    = (Returned (bool_decide (stack_running services (containers w))),
       add_events (ContainersGet <$> probed) w) /\
    (stack_running services (containers w) /\ probed = services
     \/ exists init c rest,
          services = init ++ c :: rest /\ probed = init ++ [c] /\
          Forall (fun c => containers w !! c = Some "running") init /\
          containers w !! c <> Some "running").
Proof.
  apply running_loop_short_circuit. by apply Forall_forall.
Qed.

(** X2.  [stop_container] followed by [start_container] on the same name:
    when the name is declared and the container exists, both answer [True],
    the runtime is asked to stop and then to start it, and it ends up
    [running] with every other container as it was; otherwise both answer
    [False], the runtime is asked neither, and no container changes. *)
Theorem stop_then_start name w :
  let run := bind (stop_container services name)
               (fun a => bind (start_container services name)
                           (fun b => ret (a, b))) w in
  if truthy (resolve services (containers w) name) then
    run.1 = Returned (true, true) /\
    containers run.2 = <[name := "running"]> (containers w) /\
    trace run.2 = trace w ++ ContainersGet name :: stop_output name
                  ++ ContainersGet name :: start_output name
  else
    run.1 = Returned (false, false) /\
    containers run.2 = containers w /\
    Forall (fun e => container_method e = false)
      (drop (length (trace w)) (trace run.2)).
Proof.
  cbv zeta.
  rewrite (bind_returned _ _ _ _ _ (stop_container_run services name w)).
  rewrite (bind_returned _ _ _ _ _ (start_container_run services name _)).
  cbn [containers fs trace].
  unfold started, start_events. rewrite !resolve_stopped_same.
  unfold stopped, stop_events.
  unfold ret. cbn [fst snd containers trace].
  destruct (truthy (resolve services (containers w) name)) eqn:Hr.
  - assert (Hin : name ∈ services).
    { unfold resolve in Hr. by case_bool_decide. }
    rewrite (get_events_declared services name Hin).
    split; [done |]. split; [by rewrite insert_insert_eq |].
    rewrite <- !app_assoc. reflexivity.
  - split; [done |]. split; [done |].
    rewrite <- !app_assoc, drop_app_length.
    unfold get_events. case_bool_decide; by repeat constructor.
Qed.

(** X3.  For a declared service whose container exists, [is_running] answers
    [True] right after [start_container] and [False] right after
    [stop_container], whatever the status was before. *)
Theorem is_running_after_start_and_stop name w :
  name ∈ services -> is_Some (containers w !! name) ->
  (bind (start_container services name)
     (fun _ => is_running services name) w).1 = Returned true
  /\ (bind (stop_container services name)
        (fun _ => is_running services name) w).1 = Returned false.
Proof.
  intros Hin Hsome.
  pose proof (resolve_truthy services (containers w) name Hin Hsome) as Hr.
  rewrite (bind_returned _ _ _ _ _ (start_container_run services name w)).
  rewrite (bind_returned _ _ _ _ _ (stop_container_run services name w)).
  rewrite !is_running_run. cbn [fst containers].
  unfold started, stopped. rewrite Hr. split; f_equal.
  - apply bool_decide_eq_true_2. split; [done |]. by rewrite lookup_insert_eq.
  - apply bool_decide_eq_false_2. intros [_ H].
    by rewrite lookup_insert_eq in H.
Qed.

(** X4.  [delete_migrations] is idempotent: run a second time it removes
    nothing, and leaves the filesystem and the trace of the first run as they
    are. *)
Theorem delete_migrations_idempotent w :
  exists w1,
    delete_migrations w = (Returned tt, w1) /\
    delete_migrations w1 = (Returned tt, w1).
Proof.
  eexists. split; [apply delete_migrations_run |].
  rewrite delete_migrations_run. cbn [fs containers trace].
  rewrite no_generated_migrations_left. cbn. by rewrite app_nil_r.
Qed.

Lemma string_append_assoc (s1 s2 s3 : string) :
  (s1 +:+ s2) +:+ s3 = s1 +:+ s2 +:+ s3.
Proof.
  induction s1 as [|c s1 IH]; [done |].
  change (String c ((s1 +:+ s2) +:+ s3) = String c (s1 +:+ (s2 +:+ s3))).
  by rewrite IH.
Qed.

Lemma substring_prefix pat post :
  substring 0 (String.length pat) (pat +:+ post) = pat.
Proof.
  induction pat as [|c pat IH].
  - by destruct post.
  - change (String c pat +:+ post) with (String c (pat +:+ post)).
    change (String.length (String c pat)) with (S (String.length pat)).
    cbn [substring]. f_equal. exact IH.
Qed.

Lemma substring_at_append pre pat post :
  substring (String.length pre) (String.length pat) (pre +:+ pat +:+ post) = pat.
Proof.
  induction pre as [|c pre IH]; [exact (substring_prefix pat post) | exact IH].
Qed.

Lemma contains_infix pre pat post :
  pat <> EmptyString -> contains pat (pre +:+ pat +:+ post) = true.
Proof.
  intros Hpat. unfold contains.
  destruct (index 0 pat (pre +:+ pat +:+ post)) eqn:Hidx; [done |].
  exfalso.
  apply (index_correct3 0 (String.length pre) pat _ Hidx Hpat); [lia |].
  apply substring_at_append.
Qed.

Lemma split_on_nonempty sep s : split_on sep s <> [].
Proof.
  destruct s as [|c s]; cbn; [done |].
  destruct (Ascii.eqb c sep); [done |]. by destruct (split_on sep s).
Qed.

Lemma split_on_append sep s1 s2 :
  split_on sep (s1 +:+ String sep s2) = split_on sep s1 ++ split_on sep s2.
Proof.
  induction s1 as [|c s1 IH].
  - change (EmptyString +:+ String sep s2) with (String sep s2).
    cbn [split_on app]. by rewrite Ascii.eqb_refl.
  - change (String c s1 +:+ String sep s2) with (String c (s1 +:+ String sep s2)).
    cbn [split_on]. rewrite IH.
    destruct (Ascii.eqb c sep); [done |].
    pose proof (split_on_nonempty sep s1) as Hne.
    by destruct (split_on sep s1).
Qed.

Lemma components_match_last pats names p n :
  components_match (pats ++ [p]) (names ++ [n]) = true ->
  component_match p n = true.
Proof.
  revert names. induction pats as [|q pats IH]; intros [|x names];
    cbn [app components_match].
  - rewrite andb_true_r. done.
  - destruct names; cbn [app components_match]; by rewrite andb_false_r.
  - destruct pats; cbn [app components_match]; by rewrite andb_false_r.
  - intros H. apply andb_true_iff in H as [_ H]. by apply (IH names).
Qed.

Lemma init_py_not_compiled dir :
  glob_match "backend/*/migrations/*.pyc" (dir +:+ "/__init__.py") = false.
Proof.
  unfold glob_match.
  change (split_on "/" "backend/*/migrations/*.pyc")
    with (["backend"; "*"; "migrations"] ++ ["*.pyc"]).
  change (dir +:+ "/__init__.py") with (dir +:+ String "/" "__init__.py").
  rewrite split_on_append.
  change (split_on "/" "__init__.py") with ["__init__.py"].
  destruct (components_match _ _) eqn:H; [| done].
  by apply components_match_last in H.
Qed.

(** X5.  [delete_migrations] never removes a file named [__init__.py],
    in whatever directory it lies: if the file was there it is still there
    with the same content. *)
Theorem delete_migrations_keeps_init dir w :
  fs (delete_migrations w).2 !! (dir +:+ "/__init__.py")
  = fs w !! (dir +:+ "/__init__.py").
Proof.
  rewrite delete_migrations_run. cbn [snd fs].
  apply lookup_foldr_delete_not_elem_of. intros Hin.
  apply elem_of_generated_migrations in Hin as [_ [[_ Hc] | Hpyc]].
  - pose proof (contains_infix (dir +:+ "/") "__init__.py" EmptyString) as Hin.
    rewrite string_append_assoc in Hin.
    change ("/" +:+ "__init__.py" +:+ EmptyString) with "/__init__.py" in Hin.
    rewrite Hin in Hc; done.
  - by rewrite init_py_not_compiled in Hpyc.
Qed.

(** X6.  A dump followed by a restore of the same file name: when the [db]
    container is resolvable and [pg_dump] exits with status 0, [restore_db]
    finds the file, so it does not stop at its existence check; the archive it
    copies into the [db] container has that name and holds exactly the bytes
    [pg_dump] printed, and [pg_restore] is then run on [/tmp/] followed by
    that name. *)
Theorem dump_then_restore f w st :
  "db" ∈ services -> containers w !! "db" = Some st ->
  let out := exec_result "db" (pg_dump_cmd DB_USER DB_NAME)
               (trace w ++ [ContainersGet "db"; line_cr "Dumping db..."]) in
  out.1 = 0%Z ->
  exists w1 w2 ok,
    dump_db services DB_USER DB_NAME exec_result f w = (Returned true, w1) /\
    restore_db services DB_USER exec_result f w1 = (Returned ok, w2) /\
    fs w2 !! f = Some out.2 /\
    PutArchive "db" "/tmp" (Archive f (length out.2) out.2) ∈ trace w2 /\
    ExecRun "db" (pg_restore_cmd DB_USER f) ∈ trace w2.
Proof.
  intros Hin Hst out Hout.
  pose proof (dump_db_run services DB_USER DB_NAME exec_result f w st Hin Hst) as Hd.
  cbv zeta in Hd. fold out in Hd. rewrite Hout in Hd. cbn [Z.eqb] in Hd.
  set (w1 := World _ _ _) in Hd.
  assert (Hf : fs w1 !! f = Some out.2) by apply lookup_insert_eq.
  assert (Hst1 : containers w1 !! "db" = Some st) by exact Hst.
  pose proof (restore_db_run services DB_USER exec_result f out.2 w1 st Hf Hin Hst1)
    as Hr.
  cbv zeta in Hr.
  eexists w1, _, _. split; [exact Hd |]. split; [exact Hr |].
  cbn [fs trace]. split; [exact Hf |].
  split; rewrite !elem_of_app, !elem_of_cons; tauto.
Qed.

(** X7.  [copy_to_container] on a file that is not there raises
    [FileNotFoundError] before anything is asked of the container, whatever
    the container argument is.  [restore_db] never lets that happen: for
    every file name and every world it either returns a boolean or raises the
    [AttributeError] of an unresolved [db] lookup on [put_archive]. *)
Theorem restore_db_outcomes f w :
  (fs w !! f = None ->
   forall c path,
     copy_to_container c f path w = (Raised (FileNotFoundError f), w)) /\
  ((exists ok, (restore_db services DB_USER exec_result f w).1 = Returned ok)
   \/ (truthy (resolve services (containers w) "db") = false /\
       (restore_db services DB_USER exec_result f w).1
       = Raised (AttributeError (type_name_of (resolve services (containers w) "db"))
                                "put_archive"))).
Proof.
  split.
  - intros Hf c path. unfold copy_to_container, create_archive, bind, read_file.
    by rewrite Hf.
  - destruct (fs w !! f) as [data|] eqn:Hf.
    + destruct (truthy (resolve services (containers w) "db")) eqn:Hr.
      * left. unfold resolve in Hr. case_bool_decide as Hin; [| done].
        destruct (containers w !! "db") as [st|] eqn:Hst; [| done].
        rewrite (restore_db_run services DB_USER exec_result f data w st Hf Hin Hst).
        eauto.
      * right. split; [done |].
        by rewrite (restore_db_unresolved services DB_USER exec_result f data w Hf Hr).
    + left. rewrite (restore_db_missing services DB_USER exec_result f w Hf). eauto.
Qed.

(** X8.  When the backend container is declared and exists but the [db]
    lookup fails, [reset_db] and (for a dump file that exists) [restore_db]
    stop the backend before they raise, and never start it again: the run
    ends with the backend [exited]. *)
Theorem failed_db_lookup_leaves_backend_stopped w :
  "backend" ∈ services -> is_Some (containers w !! "backend") ->
  "db" ∉ services \/ containers w !! "db" = None ->
  let left_stopped {A} (run : outcome A * world) :=
    exists e new,
      run.1 = Raised e /\
      trace run.2 = trace w ++ new /\
      ContainerStop "backend" ∈ new /\ (ContainerStart "backend" ∉ new) /\
      containers run.2 !! "backend" = Some "exited" in
  left_stopped (reset_db services DB_USER DB_NAME exec_result w) /\
  (forall f, is_Some (fs w !! f) ->
             left_stopped (restore_db services DB_USER exec_result f w)).
Proof.
  intros Hb Hsome Hdb left_stopped.
  destruct (unresolved_falsy services (containers w) Hdb) as [Hfalsy _].
  pose proof (resolve_truthy services (containers w) "backend" Hb Hsome) as Hr.
  assert (Hstop : forall msg,
    let new := get_events services "db"
               ++ stop_events services (containers w) "backend" ++ [line_cr msg] in
    ContainerStop "backend" ∈ new /\ (ContainerStart "backend" ∉ new)).
  { intros msg. cbv zeta. unfold stop_events. rewrite Hr.
    rewrite (get_events_declared services "backend" Hb).
    unfold stop_output, line, line_cr. cbn [app]. split.
    - rewrite elem_of_app, !elem_of_cons. intuition.
    - intros Hin. apply elem_of_app in Hin as [Hin | Hin].
      + unfold get_events in Hin. case_bool_decide.
        * apply elem_of_cons in Hin as [Hin | Hin]; [discriminate Hin |].
          by apply elem_of_nil in Hin.
        * by apply elem_of_nil in Hin.
      + repeat (apply elem_of_cons in Hin as [Hin | Hin]; [discriminate Hin |]).
        by apply elem_of_nil in Hin. }
  assert (Hcs : stopped services (containers w) "backend" !! "backend" = Some "exited").
  { unfold stopped. rewrite Hr. apply lookup_insert_eq. }
  unfold left_stopped. split.
  - rewrite (reset_db_unresolved services DB_USER DB_NAME exec_result w Hfalsy).
    eexists _, _. split; [reflexivity |]. split; [reflexivity |].
    cbn [snd containers]. destruct (Hstop "Dropping db...") as [? ?]. done.
  - intros f [data Hf].
    rewrite (restore_db_unresolved services DB_USER exec_result f data w Hf Hfalsy).
    eexists _, _. split; [reflexivity |]. split; [reflexivity |].
    cbn [snd containers]. destruct (Hstop "Copying file to container...") as [? ?].
    done.
Qed.

Lemma confined_ret {A} allowed (Q : A -> Prop) a : Q a -> confined allowed Q (ret a).
Proof.
  intros HQ w. cbn. split; [exists []; by rewrite app_nil_r |].
  repeat split; try done. by intros ? [= <-].
Qed.

Lemma confined_raise {A} allowed (Q : A -> Prop) e : confined allowed Q (raise e).
Proof.
  intros w. cbn. split; [exists []; by rewrite app_nil_r |].
  repeat split; done.
Qed.

Lemma confined_bind {A B} allowed (Q : A -> Prop) (R : B -> Prop) m k :
  confined allowed Q m ->
  (forall a, Q a -> confined allowed R (k a)) ->
  confined allowed R (bind m k).
Proof.
  intros Hm Hk w. destruct (Hm w) as ((evs & Ht & Hok) & Hfs & Hcs & Hdom & HQ).
  unfold bind. destruct (m w) as [[a | e] w1]; cbn [fst snd] in *.
  - destruct (Hk a (HQ a eq_refl) w1) as ((evs' & Ht' & Hok') & Hfs' & Hcs' & Hdom' & HR).
    split; [| repeat split].
    + exists (evs ++ evs'). rewrite Ht', Ht, app_assoc. split; [done |].
      by apply Forall_app_2.
    + intros p Hp. by rewrite Hfs', Hfs.
    + intros n Hn. by rewrite Hcs', Hcs.
    + intros Hs. by apply Hdom, Hdom'.
    + intros Hs. by apply Hdom', Hdom.
    + exact HR.
  - split; [by exists evs |]. repeat split; try done; by apply Hdom.
Qed.

Lemma confined_post {A} allowed (Q R : A -> Prop) m :
  confined allowed Q m -> (forall a, Q a -> R a) -> confined allowed R m.
Proof.
  intros Hm HQR w. destruct (Hm w) as (Ht & Hfs & Hcs & Hdom & HQ).
  split; [done |]. split; [done |]. split; [done |]. split; [done |].
  intros a Ha. by apply HQR, HQ.
Qed.

Lemma event_ok_mono (allowed allowed' : string -> Prop) e :
  (forall p, allowed p -> allowed' p) -> event_ok allowed e -> event_ok allowed' e.
Proof. intros Hsub. destruct e; cbn; auto. Qed.

Lemma confined_mono {A} (allowed allowed' : string -> Prop) (Q : A -> Prop) m :
  (forall p, allowed p -> allowed' p) ->
  confined allowed Q m -> confined allowed' Q m.
Proof.
  intros Hsub Hm w. destruct (Hm w) as ((evs & Ht & Hok) & Hfs & Hcs & Hdom & HQ).
  split; [| repeat split; try done].
  - exists evs. split; [done |]. eapply Forall_impl; [exact Hok |].
    intros e. by apply event_ok_mono.
  - intros p Hp. apply Hfs. intros Ha. by apply Hp, Hsub.
  - by apply Hdom.
  - by apply Hdom.
Qed.

Lemma confined_emit allowed e :
  event_ok allowed e -> confined allowed (fun _ => True) (emit e).
Proof.
  intros He w. cbn. split; [exists [e]; split; [done | by constructor] |].
  repeat split; done.
Qed.

Lemma confined_pure {A} allowed (Q : A -> Prop) (m : py A) :
  (forall w, (m w).2 = w) ->
  (forall w a, (m w).1 = Returned a -> Q a) ->
  confined allowed Q m.
Proof.
  intros Hw HQ w. rewrite Hw.
  split; [exists []; by rewrite app_nil_r |].
  repeat split; try done. apply HQ.
Qed.

Lemma confined_print allowed s : confined allowed (fun _ => True) (print s).
Proof. by apply confined_emit. Qed.

Lemma confined_print_cr allowed s : confined allowed (fun _ => True) (print_cr s).
Proof. by apply confined_emit. Qed.

Lemma confined_subprocess_run allowed cmd :
  confined allowed (fun _ => True) (subprocess_run cmd).
Proof. by apply confined_emit. Qed.

Lemma confined_when allowed b m :
  confined allowed (fun _ => True) m -> confined allowed (fun _ => True) (when b m).
Proof. intros Hm. destruct b; [done |]. by apply confined_ret. Qed.

Lemma confined_isfile allowed f : confined allowed (fun _ => True) (isfile f).
Proof. by apply confined_pure. Qed.

Lemma confined_read_file allowed f : confined allowed (fun _ => True) (read_file f).
Proof.
  apply confined_pure; [| done]. intros w. unfold read_file.
  by destruct (fs w !! f).
Qed.

Lemma confined_glob_glob allowed pattern :
  confined allowed (Forall (fun p => glob_match pattern p = true)) (glob_glob pattern).
Proof.
  apply confined_pure; [done |]. intros w l [= <-].
  apply Forall_forall. intros p Hp. by apply elem_of_glob in Hp as [_ Hp].
Qed.

Lemma confined_open_wb (allowed : string -> Prop) f :
  allowed f -> confined allowed (fun _ => True) (open_wb f).
Proof.
  intros Hf w. cbn. split; [exists [FileOpenWrite f]; split; [done | by constructor] |].
  repeat split; try done. intros p Hp. apply lookup_insert_ne. by intros ->.
Qed.

Lemma confined_file_write (allowed : string -> Prop) f data :
  allowed f -> confined allowed (fun _ => True) (file_write f data).
Proof.
  intros Hf w. cbn.
  split; [exists [FileWrite f data]; split; [done | by constructor] |].
  repeat split; try done. intros p Hp. apply lookup_insert_ne. by intros ->.
Qed.

Lemma confined_os_remove (allowed : string -> Prop) f :
  allowed f -> confined allowed (fun _ => True) (os_remove f).
Proof.
  intros Hf w. unfold os_remove. destruct (fs w !! f); cbn.
  - split; [exists [OsRemove f]; split; [done | by constructor] |].
    repeat split; try done. intros p Hp. apply lookup_delete_ne. by intros ->.
  - split; [exists []; by rewrite app_nil_r |]. repeat split; done.
Qed.

Lemma confined_remove_all (allowed : string -> Prop) files :
  Forall allowed files -> confined allowed (fun _ => True) (remove_all files).
Proof.
  induction 1 as [|f files Hf Hfiles IH]; cbn [remove_all].
  - by apply confined_ret.
  - eapply confined_bind; [by apply confined_os_remove |]. intros _ _. exact IH.
Qed.

Lemma confined_exec_run allowed c cmd :
  handle_named "db" c ->
  confined allowed (fun _ => True) (exec_run exec_result c cmd).
Proof.
  intros Hc. destruct c as [| |n st]; try apply confined_raise.
  cbn in Hc. subst n. intros w. cbn.
  split; [exists [ExecRun "db" cmd]; split; [done | by constructor] |].
  repeat split; done.
Qed.

Lemma confined_put_archive allowed c path data :
  handle_named "db" c ->
  confined allowed (fun _ => True) (put_archive c path data).
Proof.
  intros Hc. destruct c as [| |n st]; try apply confined_raise.
  cbn in Hc. subst n. by apply confined_emit.
Qed.

Lemma confined_get_container allowed name :
  confined allowed (handle_named name) (get_container services name).
Proof.
  intros w. rewrite get_container_run. cbn [fst snd add_events trace fs containers].
  split; [| repeat split; try done].
  - eexists. split; [done |]. unfold get_events. case_bool_decide; by repeat constructor.
  - intros c [= <-]. unfold resolve. case_bool_decide; [| done].
    by destruct (containers w !! name).
Qed.

Lemma confined_start_backend allowed :
  confined allowed (fun _ => True) (start_container services "backend").
Proof.
  intros w. rewrite start_container_run. cbn [fst snd trace fs containers].
  split; [| repeat split; try done].
  - eexists. split; [done |]. unfold start_events, get_events, start_output.
    case_bool_decide; destruct (truthy _); by repeat constructor.
  - intros n Hn. by apply started_lookup_ne.
  - unfold started. destruct (truthy _) eqn:Hr; [| done].
    destruct (decide (n = "backend")) as [-> | Hn]; [| by rewrite lookup_insert_ne].
    intros _. unfold resolve in Hr. case_bool_decide; [| done].
    by destruct (containers w !! "backend").
  - unfold started. destruct (truthy _) eqn:Hr; [| done].
    destruct (decide (n = "backend")) as [-> | Hn]; [| by rewrite lookup_insert_ne].
    intros _. by rewrite lookup_insert_eq.
Qed.

Lemma confined_stop_backend allowed :
  confined allowed (fun _ => True) (stop_container services "backend").
Proof.
  intros w. rewrite stop_container_run. cbn [fst snd trace fs containers].
  split; [| repeat split; try done].
  - eexists. split; [done |]. unfold stop_events, get_events, stop_output.
    case_bool_decide; destruct (truthy _); by repeat constructor.
  - intros n Hn. by apply stopped_lookup_ne.
  - unfold stopped. destruct (truthy _) eqn:Hr; [| done].
    destruct (decide (n = "backend")) as [-> | Hn]; [| by rewrite lookup_insert_ne].
    intros _. unfold resolve in Hr. case_bool_decide; [| done].
    by destruct (containers w !! "backend").
  - unfold stopped. destruct (truthy _) eqn:Hr; [| done].
    destruct (decide (n = "backend")) as [-> | Hn]; [| by rewrite lookup_insert_ne].
    intros _. by rewrite lookup_insert_eq.
Qed.

(** One step of a sequence whose first computation has a known bound. *)
Ltac conf_step lem := eapply confined_bind; [apply lem |]; intros ? ?.

Lemma confined_is_running allowed name :
  confined allowed (fun _ => True) (is_running services name).
Proof.
  unfold is_running. conf_step confined_get_container.
  destruct a; by apply confined_ret.
Qed.

Lemma confined_running_loop allowed l :
  confined allowed (fun _ => True) (running_loop services l).
Proof.
  induction l as [|c l IH]; cbn [running_loop]; [by apply confined_ret |].
  conf_step confined_is_running. destruct a; [exact IH | by apply confined_ret].
Qed.

Lemma confined_print_lines allowed lines :
  confined allowed (fun _ => True) (print_lines lines).
Proof.
  induction lines as [|l lines IH]; cbn [print_lines]; [by apply confined_ret |].
  conf_step confined_print. exact IH.
Qed.

Lemma confined_dump_db (allowed : string -> Prop) f :
  allowed f ->
  confined allowed (fun _ => True) (dump_db services DB_USER DB_NAME exec_result f).
Proof.
  intros Hf. unfold dump_db.
  conf_step confined_get_container. conf_step confined_print_cr.
  eapply confined_bind; [by apply confined_exec_run |]. intros r _.
  head_if_confined.
  - conf_step confined_print. by apply confined_ret.
  - conf_step confined_print.
    eapply confined_bind; [by apply confined_open_wb |]. intros _ _.
    conf_step confined_print_cr.
    eapply confined_bind; [by apply confined_file_write |]. intros _ _.
    conf_step confined_print. by apply confined_ret.
Qed.

Lemma confined_copy_to_container allowed c f path :
  handle_named "db" c ->
  confined allowed (fun _ => True) (copy_to_container c f path).
Proof.
  intros Hc. unfold copy_to_container, create_archive.
  eapply confined_bind with (Q := fun _ => True).
  - conf_step confined_read_file. by apply confined_ret.
  - intros archive _. by apply confined_put_archive.
Qed.

Lemma confined_restore_db allowed f :
  confined allowed (fun _ => True) (restore_db services DB_USER exec_result f).
Proof.
  unfold restore_db. conf_step confined_isfile.
  head_if_confined.
  - conf_step confined_print. by apply confined_ret.
  - conf_step confined_get_container. conf_step confined_stop_backend.
    conf_step confined_print_cr.
    eapply confined_bind; [by apply confined_copy_to_container |]. intros _ _.
    conf_step confined_print. conf_step confined_print_cr.
    eapply confined_bind; [by apply confined_exec_run |]. intros r _.
    eapply confined_bind; [apply confined_when, confined_print |]. intros _ _.
    conf_step confined_start_backend.
    head_if_confined; [| by apply confined_ret].
    conf_step confined_print. by apply confined_ret.
Qed.

Lemma confined_create_db allowed :
  confined allowed (fun _ => True) (create_db services DB_USER DB_NAME exec_result).
Proof.
  unfold create_db. conf_step confined_get_container. conf_step confined_print_cr.
  eapply confined_bind; [by apply confined_exec_run |]. intros r _.
  head_if_confined; conf_step confined_print; by apply confined_ret.
Qed.

Lemma confined_reset_db allowed :
  confined allowed (fun _ => True) (reset_db services DB_USER DB_NAME exec_result).
Proof.
  unfold reset_db. conf_step confined_get_container. conf_step confined_stop_backend.
  conf_step confined_print_cr.
  eapply confined_bind; [by apply confined_exec_run |]. intros r _.
  eapply confined_bind with (Q := fun _ => True).
  { head_if_confined; apply confined_print. }
  intros _ _. conf_step confined_create_db. conf_step confined_start_backend.
  head_if_confined; by apply confined_ret.
Qed.

Lemma confined_delete_migrations (allowed : string -> Prop) :
  (forall p, migration_path p -> allowed p) ->
  confined allowed (fun _ => True) delete_migrations.
Proof.
  intros Hsub. unfold delete_migrations.
  eapply confined_bind; [apply confined_glob_glob |]. intros py_files Hpy.
  eapply confined_bind; [apply confined_glob_glob |]. intros pyc_files Hpyc.
  apply confined_remove_all, Forall_app_2.
  - apply Forall_forall. intros p Hp.
    apply list_elem_of_In, filter_In in Hp as [Hp _]. apply list_elem_of_In in Hp.
    rewrite Forall_forall in Hpy. apply Hsub. left. by apply Hpy.
  - eapply Forall_impl; [exact Hpyc |]. intros p Hp. apply Hsub. by right.
Qed.

Lemma confined_reset_django (allowed : string -> Prop) :
  (forall p, migration_path p -> allowed p) ->
  confined allowed (fun _ => True)
    (reset_django services DB_USER DB_NAME exec_result).
Proof.
  intros Hsub. unfold reset_django, django_migrate.
  eapply confined_bind; [by apply confined_delete_migrations |]. intros _ _.
  conf_step confined_reset_db. conf_step confined_subprocess_run.
  apply confined_subprocess_run.
Qed.

Lemma confined_dispatch argv b :
  confined (allowed_main argv) (fun _ => True)
    (dispatch services DB_USER DB_NAME exec_result argv b).
Proof.
  unfold dispatch, print_usage, argv_at.
  head_if_confined; [apply confined_print_lines |].
  destruct (argv !! 1) as [cmd|] eqn:Hcmd;
    [| eapply confined_bind with (Q := fun _ => False);
        [apply confined_raise | done]].
  eapply confined_bind with (Q := fun c => c = cmd); [by apply confined_ret |].
  intros ? ->.
  head_if_confined; [apply confined_print_lines |].
  head_if_confined.
  { unfold compose_build, compose_up. conf_step confined_subprocess_run.
    head_if_confined; [| by apply confined_ret].
    destruct (argv !! 2);
      [| eapply confined_bind with (Q := fun _ => False);
        [apply confined_raise | done]].
    eapply confined_bind with (Q := fun _ => True); [by apply confined_ret |].
    intros a2 _. apply confined_when, confined_subprocess_run. }
  head_if_confined; [apply confined_subprocess_run |].
  head_if_confined; [apply confined_print |].
  head_if_confined.
  { eapply confined_bind; [apply confined_when, confined_print |]. intros _ _.
    eapply confined_bind; [apply confined_when, confined_print |]. intros _ _.
    destruct (argv !! 2);
      [| eapply confined_bind with (Q := fun _ => False);
        [apply confined_raise | done]].
    eapply confined_bind with (Q := fun _ => True); [by apply confined_ret |].
    intros a2 _. apply confined_subprocess_run. }
  head_if_confined; [apply confined_subprocess_run |].
  head_if_confined.
  { match goal with H : String.eqb cmd "dump" = true |- _ =>
      apply String.eqb_eq in H as -> end.
    head_if_confined.
    - destruct (argv !! 2) as [a2|] eqn:Ha2;
        [| eapply confined_bind with (Q := fun _ => False);
        [apply confined_raise | done]].
      eapply confined_bind with (Q := fun c => c = a2); [by apply confined_ret |].
      intros ? ->.
      eapply confined_bind; [| intros; by apply confined_ret].
      apply confined_dump_db. right. split; [done |].
      unfold dump_target. by rewrite Ha2.
    - eapply confined_bind; [| intros; by apply confined_ret].
      apply confined_dump_db. right. split; [done |].
      unfold dump_target.
      match goal with H : (2 <? length argv)%nat = false |- _ =>
        apply Nat.ltb_ge in H; by rewrite (lookup_ge_None_2 argv 2 H) end. }
  head_if_confined.
  { head_if_confined; [apply confined_print |].
    head_if_confined; [apply confined_print |].
    destruct (argv !! 2);
      [| eapply confined_bind with (Q := fun _ => False);
        [apply confined_raise | done]].
    eapply confined_bind with (Q := fun _ => True); [by apply confined_ret |].
    intros a2 _. conf_step confined_restore_db. by apply confined_ret. }
  head_if_confined.
  { conf_step confined_reset_db. by apply confined_ret. }
  head_if_confined; [apply confined_reset_django; by left |].
  head_if_confined; [apply confined_subprocess_run |].
  conf_step confined_print. apply confined_print_lines.
Qed.

Lemma confined_main argv :
  confined (allowed_main argv) (fun _ => True)
    (main services DB_USER DB_NAME exec_result argv).
Proof.
  unfold main, are_containers_running.
  conf_step confined_running_loop.
  eapply confined_bind; [apply confined_delete_migrations; by left |].
  intros _ _. apply confined_dispatch.
Qed.


(** X11.  Whatever the command line, a run of [main] only adds to the trace,
    and every call it adds is within bounds: [start] and [stop] are only ever
    called on the [backend] container, [exec_run] and [put_archive] only on
    the [db] container, files are removed or written only at the paths of
    X10. *)
Theorem main_calls_within_bounds argv w :
  exists evs,
    trace (main services DB_USER DB_NAME exec_result argv w).2 = trace w ++ evs /\
    Forall (event_ok (allowed_main argv)) evs.
Proof. by destruct (confined_main argv w) as (Ht & _). Qed.

(** X12.  Through the docker client, [main] changes the status of no
    container but [backend], and the runtime ends with the same containers it
    began with. *)
Theorem main_changes_only_backend argv w n :
  (n <> "backend" ->
   containers (main services DB_USER DB_NAME exec_result argv w).2 !! n
   = containers w !! n) /\
  (is_Some (containers (main services DB_USER DB_NAME exec_result argv w).2 !! n)
   <-> is_Some (containers w !! n)).
Proof.
  destruct (confined_main argv w) as (_ & _ & Hcs & Hdom & _).
  split; [apply Hcs | apply Hdom].
Qed.

Lemma confined_nothing_fs {A} (Q : A -> Prop) (m : py A) w :
  confined (fun _ => False) Q m -> fs (m w).2 = fs w.
Proof.
  intros Hm. destruct (Hm w) as (_ & Hfs & _).
  apply map_eq. intros p. apply Hfs. tauto.
Qed.

(** X13.  [restore_db], [create_db] and [reset_db] never change a local
    file, and [dump_db] changes no file but the one it is told to write,
    whether they return or raise. *)
Theorem db_operations_and_local_files f w :
  fs (restore_db services DB_USER exec_result f w).2 = fs w /\
  fs (create_db services DB_USER DB_NAME exec_result w).2 = fs w /\
  fs (reset_db services DB_USER DB_NAME exec_result w).2 = fs w /\
  (forall p, p <> f ->
     fs (dump_db services DB_USER DB_NAME exec_result f w).2 !! p = fs w !! p).
Proof.
  split; [| split; [| split]].
  - eapply confined_nothing_fs, confined_restore_db.
  - eapply confined_nothing_fs, confined_create_db.
  - eapply confined_nothing_fs, confined_reset_db.
  - intros p Hp.
    destruct (confined_dump_db (fun q => q = f) f eq_refl w) as (_ & Hfs & _).
    by apply Hfs.
Qed.

(** X14.  A wrong number of arguments is handled in two ways.  [shell] with
    more than one argument prints that there are too many and opens the shell
    in the first-named container all the same; [restore] with no file name or
    with more than one prints its complaint and does nothing else. *)
Theorem argument_count_handling prog w :
  (forall name extra,
     dispatch services DB_USER DB_NAME exec_result
       (prog :: "shell" :: name :: extra) true w
     = (Returned tt,
        add_events
          (match extra with
           | [] => []
           | _ :: _ => [line "Too many arguments!"]
           end ++ [SubprocessRun ("docker exec -it " +:+ name +:+ " sh")]) w)) /\
  (forall rest,
     length rest <> 1 ->
     dispatch services DB_USER DB_NAME exec_result (prog :: "restore" :: rest) true w
     = (Returned tt,
        add_events
          [line match rest with
                | [] => "Missing filename of the dump to restore!"
                | _ :: _ => "Too many arguments!"
                end] w)).
Proof.
  split.
  - intros name [|e extra].
    + reflexivity.
    + transitivity
        (Returned tt,
         add_events [SubprocessRun ("docker exec -it " +:+ name +:+ " sh")]
           (add_events [line "Too many arguments!"] w));
        [reflexivity | by rewrite add_events_app].
  - intros [|a [|b rest]] Hlen; [reflexivity | done | reflexivity].
Qed.

Lemma join_cons sep a b rest :
  join sep (a :: b :: rest) = a +:+ sep +:+ join sep (b :: rest).
Proof. reflexivity. Qed.

(** X15.  [manage] hands its arguments to the shell joined by single
    spaces, so the boundaries between them are not kept: an argument that
    contains a space gives the same command line as the two arguments on
    either side of that space. *)
Theorem manage_joins_arguments prog args a b rest w :
  dispatch services DB_USER DB_NAME exec_result (prog :: "manage" :: args) true w
  = (Returned tt,
     add_events
       [SubprocessRun ("docker exec -it backend /app/manage.py " +:+ join " " args)]
       w)
  /\ dispatch services DB_USER DB_NAME exec_result
       (prog :: "manage" :: (a +:+ " " +:+ b) :: rest) true w
     = dispatch services DB_USER DB_NAME exec_result
         (prog :: "manage" :: a :: b :: rest) true w.
Proof.
  assert (Hrun : forall l,
    dispatch services DB_USER DB_NAME exec_result (prog :: "manage" :: l) true w
    = (Returned tt,
       add_events
         [SubprocessRun ("docker exec -it backend /app/manage.py " +:+ join " " l)]
         w)) by reflexivity.
  split; [apply Hrun |]. rewrite !Hrun. do 4 f_equal.
  rewrite join_cons. destruct rest as [|c rest]; [reflexivity |].
  rewrite !join_cons. by rewrite !string_append_assoc.
Qed.

(** X16.  The help forms, [build] and [up] do not depend on the state of the
    stack: the chain of [main] does for them the same thing whether the
    services are running or not.  In particular [up] always issues
    [docker compose up -d], and [build] always issues [docker compose build],
    followed by [docker compose up -d] exactly when its next argument is
    [up]. *)
Theorem ungated_commands_ignore_stack_state prog cmd rest b w :
  (ungated cmd = true ->
   dispatch services DB_USER DB_NAME exec_result (prog :: cmd :: rest) b w
   = dispatch services DB_USER DB_NAME exec_result (prog :: cmd :: rest) true w) /\
  dispatch services DB_USER DB_NAME exec_result (prog :: "up" :: rest) b w
  = (Returned tt, add_events [SubprocessRun "docker compose up -d"] w) /\
  dispatch services DB_USER DB_NAME exec_result (prog :: "build" :: rest) b w
  = (Returned tt,
     add_events
       (SubprocessRun "docker compose build"
        :: match rest with
           | a :: _ => if String.eqb a "up"
                       then [SubprocessRun "docker compose up -d"] else []
           | [] => []
           end) w).
Proof.
  split; [| split].
  - intros Hu. unfold dispatch, argv_at. cbn [length Nat.eqb lookup list_lookup].
    unfold bind, ret. unfold ungated in Hu.
    destruct (String.eqb cmd "-h" || String.eqb cmd "--help" || String.eqb cmd "help");
      [done |].
    destruct (String.eqb cmd "build"); [done |].
    destruct (String.eqb cmd "up"); [done | discriminate Hu].
  - reflexivity.
  - destruct rest as [|a rest]; [reflexivity |].
    transitivity
      (when (String.eqb a "up") compose_up
         (add_events [SubprocessRun "docker compose build"] w));
      [reflexivity |].
    destruct (String.eqb a "up"); [| reflexivity].
    transitivity
      (Returned tt,
       add_events [SubprocessRun "docker compose up -d"]
         (add_events [SubprocessRun "docker compose build"] w));
      [reflexivity | by rewrite add_events_app].
Qed.

(** X17.  With every declared service running but no [db] service in the
    compose file, the commands [dump], [resetdb] and [resetdjango] make
    [main] end in the [AttributeError] of calling [exec_run] on [False]. *)
Theorem main_raises_without_db prog cmd rest w :
  "db" ∉ services ->
  stack_running services (containers w) ->
  cmd ∈ ["dump"; "resetdb"; "resetdjango"] ->
  exists w',
    main services DB_USER DB_NAME exec_result (prog :: cmd :: rest) w
    = (Raised (AttributeError "bool" "exec_run"), w').
Proof.
  intros Hdb Hup Hcmd.
  destruct (main_run services DB_USER DB_NAME exec_result (prog :: cmd :: rest) w)
    as (probed & _ & Hmain).
  rewrite (bool_decide_eq_true_2 _ Hup) in Hmain. rewrite Hmain.
  set (w1 := World _ _ _).
  destruct (unresolved_falsy services (containers w1) (or_introl Hdb)) as [Hf Hty].
  rewrite (bool_decide_eq_false_2 _ Hdb) in Hty.
  repeat (apply elem_of_cons in Hcmd as [-> | Hcmd]);
    [| | | by apply elem_of_nil in Hcmd].
  - assert (Hd : exists f,
      dispatch services DB_USER DB_NAME exec_result (prog :: "dump" :: rest) true w1
      = bind (dump_db services DB_USER DB_NAME exec_result f) (fun _ => ret tt) w1).
    { destruct rest as [|a rest]; by eexists. }
    destruct Hd as [f ->].
    erewrite bind_raised; [| by apply dump_db_unresolved]. rewrite Hty. by eexists.
  - change (dispatch services DB_USER DB_NAME exec_result
              (prog :: "resetdb" :: rest) true w1)
      with (bind (reset_db services DB_USER DB_NAME exec_result) (fun _ => ret tt) w1).
    erewrite bind_raised; [| by apply reset_db_unresolved]. rewrite Hty. by eexists.
  - change (dispatch services DB_USER DB_NAME exec_result
              (prog :: "resetdjango" :: rest) true w1)
      with (reset_django services DB_USER DB_NAME exec_result w1).
    unfold reset_django.
    rewrite (bind_returned _ _ _ _ _ (delete_migrations_run w1)).
    erewrite bind_raised; [| by apply reset_db_unresolved].
    cbn [containers]. rewrite Hty. by eexists.
Qed.

End Properties.

(** ** The further properties at the sample environments *)

Lemma backend_declared : "backend" ∈ sample_services.
Proof. unfold sample_services. set_solver. Defined.

Lemma is_running_after_start_and_stop_witness :
  (bind (start_container sample_services "backend")
     (fun _ => is_running sample_services "backend") sample_world_down).1
  = Returned true
  /\ (bind (stop_container sample_services "backend")
        (fun _ => is_running sample_services "backend") sample_world_down).1
     = Returned false.
Proof.
  apply is_running_after_start_and_stop.
  - exact backend_declared.
  - exists "exited". reflexivity.
Defined.

Lemma dump_then_restore_witness :
  let out := exec_ok "db" (pg_dump_cmd None None)
               (trace sample_world ++ [ContainersGet "db"; line_cr "Dumping db..."]) in
  exists w1 w2 ok,
    dump_db sample_services None None exec_ok "new.dump" sample_world
    = (Returned true, w1) /\
    restore_db sample_services None exec_ok "new.dump" w1 = (Returned ok, w2) /\
    fs w2 !! "new.dump" = Some out.2 /\
    PutArchive "db" "/tmp" (Archive "new.dump" (length out.2) out.2) ∈ trace w2 /\
    ExecRun "db" (pg_restore_cmd None "new.dump") ∈ trace w2.
Proof.
  apply (dump_then_restore sample_services None None exec_ok
           "new.dump" sample_world "running").
  - exact db_declared.
  - reflexivity.
  - reflexivity.
Defined.

Lemma failed_db_lookup_leaves_backend_stopped_witness :
  let left_stopped {A} (run : outcome A * world) :=
    exists e new,
      run.1 = Raised e /\
      trace run.2 = trace sample_world_no_db ++ new /\
      ContainerStop "backend" ∈ new /\ (ContainerStart "backend" ∉ new) /\
      containers run.2 !! "backend" = Some "exited" in
  left_stopped (reset_db sample_services None None exec_ok sample_world_no_db) /\
  (forall f, is_Some (fs sample_world_no_db !! f) ->
             left_stopped (restore_db sample_services None exec_ok f
                             sample_world_no_db)).
Proof.
  apply (failed_db_lookup_leaves_backend_stopped sample_services None None exec_ok
           sample_world_no_db).
  - exact backend_declared.
  - exists "running". reflexivity.
  - right. reflexivity.
Defined.


Lemma main_raises_without_db_witness :
  exists w',
    main ["backend"] None None exec_ok ["containers.py"; "resetdb"] sample_world
    = (Raised (AttributeError "bool" "exec_run"), w').
Proof.
  apply main_raises_without_db.
  - intros H. apply list_elem_of_singleton in H. discriminate H.
  - unfold stack_running. repeat (constructor; [vm_compute; reflexivity |]).
    constructor.
  - set_solver.
Defined.
